(** * Digital Panel Inspection: the browser client of the GA balloon engine

    A shallow embedding of the front-end script of the repository
    (src/unnamed/part_000, the cache + resume client, and the older copies of
    the same script kept in src/unnamed/part_000 and src/frontend/script.js),
    followed by the properties proved about it.

    Conventions of the embedding
    - every [async] function runs to completion before the next event is
      handled; an [await]ed request is answered by the network handler [net];
    - DOM updates that no property depends on (styles, inner texts) are left
      out; alerts, notifications, requests, beacons and storage writes are
      recorded, in order, in the client's [log];
    - JavaScript numbers are integers ([Z]), safe integers where their text
      matters; strings are sequences of 8-bit code units ([string]). *)

From Stdlib Require Import ZArith Lia Bool Ascii.
From stdpp Require Import base option list gmap strings pretty sorting.

Open Scope string_scope.
Open Scope Z_scope.
Set Warnings "-clear-no-such-hyp".

(* ===================================================================== *)
(** * Part I: definitions *)
(* ===================================================================== *)

(** ** JavaScript values as they arrive in JSON *)

Inductive jsval : Type :=
  | JUndefined
  | JNull
  | JBool (b : bool)
  | JNum (z : Z)
  | JStr (s : string).

Global Instance jsval_eq_dec : EqDecision jsval.
Proof. solve_decision. Defined.

(** ToBoolean. *)
Definition truthy (v : jsval) : bool :=
  match v with
  | JUndefined | JNull => false
  | JBool b => b
  | JNum z => negb (z =? 0)
  | JStr s => negb (String.eqb s "")
  end.

(** The integers a double holds exactly and [String] prints digit by digit:
    up to [Number.MAX_SAFE_INTEGER] in size.  A [JNum z] stands for such a
    number, and a statement about the text of a number asks for it. *)
Definition safe_number (v : jsval) : Prop :=
  match v with
  | JNum z => Z.abs z ≤ 9007199254740991
  | _ => True
  end.

(** [String(v)]; for a number, the text of a safe integer. *)
Definition js_String (v : jsval) : string :=
  match v with
  | JUndefined => "undefined"
  | JNull => "null"
  | JBool true => "true"
  | JBool false => "false"
  | JNum z => pretty z
  | JStr s => s
  end.

(** [a === b] on JSON values. *)
Definition strict_eq (a b : jsval) : bool := bool_decide (a = b).

(** [v || ""] followed by a conversion to text, as in
    [sanitizeHTML(item["FIND NUMBER"] || "")]. *)
Definition or_empty (v : jsval) : string :=
  if truthy v then js_String v else "".

(** [Array.prototype.sort(cmp)]: the sort is stable, and [cmp x y <= 0]
    keeps [x] before [y]. *)
Fixpoint sort_insert {A} (cmp : A → A → Z) (x : A) (l : list A) : list A :=
  match l with
  | [] => [x]
  | y :: l' => if cmp x y <=? 0 then x :: y :: l' else y :: sort_insert cmp x l'
  end.

Definition array_sort {A} (cmp : A → A → Z) (l : list A) : list A :=
  foldr (sort_insert cmp) [] l.

(** [Array.prototype.join(sep)] on an array of texts. *)
Fixpoint array_join (sep : string) (l : list string) : string :=
  match l with
  | [] => ""
  | [x] => x
  | x :: l' => x +:+ sep +:+ array_join sep l'
  end.

(** ** How a computation ends: with a value, or with an exception thrown *)

Inductive outcome (A : Type) : Type :=
  | Done (a : A)
  | Thrown (msg : string).
Arguments Done {A} a.
Arguments Thrown {A} msg.

(** ** Objects used as maps *)

(** The properties an object created as [{}] inherits from
    [Object.prototype], each with its [length]: functions, but for
    [__proto__], which gives the prototype object itself and has no
    [length].  All of them are truthy. *)
Definition object_prototype : list (string * option Z) :=
  [("constructor", Some 1); ("__defineGetter__", Some 2);
   ("__defineSetter__", Some 2); ("hasOwnProperty", Some 1);
   ("__lookupGetter__", Some 1); ("__lookupSetter__", Some 1);
   ("isPrototypeOf", Some 1); ("propertyIsEnumerable", Some 1);
   ("toString", Some 0); ("valueOf", Some 0); ("toLocaleString", Some 0);
   ("__proto__", None)].

(** What [obj[k]] gives. *)
Inductive property (A : Type) : Type :=
  | Own (a : A)                       (* a property of the object itself *)
  | Inherited (length : option Z)     (* a member of Object.prototype *)
  | Absent.                           (* undefined *)
Arguments Own {A} a.
Arguments Inherited {A} length.
Arguments Absent {A}.

(** [k] names a member of [Object.prototype]. *)
Definition inherited (k : string) : bool :=
  bool_decide (k ∈ object_prototype.*1).

(** [obj[k]] for an object created as [{}] whose own properties are [m]. *)
Definition get_property {A} (m : gmap string A) (k : string) : property A :=
  match m !! k with
  | Some a => Own a
  | None =>
      match list_find (λ p, p.1 = k) object_prototype with
      | Some (_, (_, length)) => Inherited length
      | None => Absent
      end
  end.

(** ** Balloons *)

Record BBox := { x1 : Z; y1 : Z; x2 : Z; y2 : Z }.

(** An object among the elements of the [/balloon_results] array.  A field
    that is missing or [null] in the JSON is [JUndefined] / [None]; an
    element that is a number, a text or a boolean has no fields at all.  In
    the array itself an element is [Some b], or [None] for [null]. *)
Record Balloon := {
  balloon_number : jsval;
  page : option Z;
  bbox : option BBox
}.

Global Instance BBox_eq_dec : EqDecision BBox.
Proof. solve_decision. Defined.
Global Instance Balloon_eq_dec : EqDecision Balloon.
Proof. solve_decision. Defined.

Definition page_truthy (p : option Z) : bool :=
  match p with Some z => negb (z =? 0) | None => false end.

(** The number a page converts to in [a.page - b.page]. *)
Definition page_num (b : Balloon) : Z := default 0 (page b).

(** The guard of loadBalloonMapping:
    [!b.balloon_number || !b.page || !b.bbox]. *)
Definition invalid_balloon (b : Balloon) : bool :=
  negb (truthy (balloon_number b)) || negb (page_truthy (page b))
  || negb (bool_decide (is_Some (bbox b))).

(** [if (!obj[k]) obj[k] = []; obj[k].push(b)]: an inherited member is
    truthy and has no [push]. *)
Definition push_under (m : gmap string (list Balloon)) (k : string) (b : Balloon)
  : outcome (gmap string (list Balloon)) :=
  match get_property m k with
  | Own entries => Done (<[k := (entries ++ [b])%list]> m)
  | Absent => Done (<[k := [b]]> m)
  | Inherited _ => Thrown "balloonMapping[k].push is not a function"
  end.

(** The body of [d.forEach(b => ...)] in loadBalloonMapping
    (part_000:1199-1208): the mapping after the element, or the TypeError
    the element raises. *)
Definition add_balloon (m : gmap string (list Balloon)) (b : option Balloon)
  : outcome (gmap string (list Balloon)) :=
  match b with
  | None => Thrown "Cannot read properties of null (reading 'balloon_number')"
  | Some b =>
      if invalid_balloon b then Done m
      else push_under m (js_String (balloon_number b)) b
  end.

(** [d.forEach(...)] from the mapping [m] on: how it ends, and what the
    mapping holds then (at a TypeError, what was grouped before it). *)
Fixpoint for_each (step : gmap string (list Balloon) → option Balloon
                          → outcome (gmap string (list Balloon)))
    (m : gmap string (list Balloon)) (d : list (option Balloon))
  : outcome unit * gmap string (list Balloon) :=
  match d with
  | [] => (Done tt, m)
  | b :: d' =>
      match step m b with
      | Done m' => for_each step m' d'
      | Thrown e => (Thrown e, m)
      end
  end.

(** [balloonMapping = {}; d.forEach(...)]. *)
Definition build_mapping (d : list (option Balloon))
  : outcome unit * gmap string (list Balloon) :=
  for_each add_balloon ∅ d.

(** The comparator of [entries.sort((a, b) => a.page - b.page)]. *)
Definition by_page (a b : Balloon) : Z := page_num a - page_num b.

(** ** The network, as the client sees it *)

(** A [File] of an [<input type=file>]. *)
Record File := { file_name : string; file_bytes : list Byte.byte }.

(** The requests of the cache + resume client, by URL. *)
Inductive request : Type :=
  | UploadGA (f : File) (force : bool)  (* POST /upload/ga, /upload/ga?force=true *)
  | ResumeGA (f : File)                 (* POST /resume_ga *)
  | ClearProgress (file_hash : string)  (* POST /clear_ga_progress?file_hash=.. *)
  | JobStatus (id : string)             (* GET  /job/status/{id} *)
  | JobCancel (id : string)             (* POST /job/cancel/{id} *)
  | BalloonResults                      (* GET  /balloon_results *)
  | GaPages                             (* GET  /ga_pages *)
  | GaImage (p : Z)                     (* GET  /ga_image/page_{p}.jpg *)
  | BomDetails (find_number : string).  (* GET  /bom/details/{findNumber} *)

(** [progress_data] of a "resumable" answer. *)
Record progress_data := {
  processed_pages : jsval;
  total_pages : jsval;
  progress_percent : jsval;
  balloons_so_far : jsval;
  last_update : jsval;
  remaining_pages : jsval
}.

(** The JSON answer of /upload/ga; an absent field is [JUndefined]. *)
Record upload_data := {
  u_status : jsval;
  u_detections : jsval;
  u_pages : jsval;
  u_progress_data : option progress_data;
  u_file_hash : jsval;
  u_job_id : jsval
}.

(** The JSON answer of /job/status/{id}. *)
Record status_data := {
  s_status : jsval;
  s_progress : jsval;
  s_message : jsval
}.

(** What [await fetch(..)] gives: a rejected promise, or a response with its
    [ok] flag, its status code and its body ([None]: the body is not JSON,
    so [r.json()] rejects). *)
Inductive reply (A : Type) : Type :=
  | NetworkError
  | Response (ok : bool) (code : Z) (data : option A).
Arguments NetworkError {A}.
Arguments Response {A} ok code data.

(** One handler per endpoint over the state [S] of whatever answers, and
    the status text that comes with a status code. *)
Record network (S : Type) := {
  upload_ga : File → bool → S → reply upload_data * S;
  resume_ga : File → S → reply jsval * S;           (* data.job_id *)
  clear_ga_progress : string → S → reply unit * S;
  job_status : string → S → reply status_data * S;
  job_cancel : string → S → reply unit * S;
  balloon_results : S → reply (option (list (option Balloon))) * S;
                                                    (* [None]: not an array *)
  ga_pages : S → reply Z * S;                       (* d.pages *)
  ga_image : Z → S → bool * S;                      (* img.onload / img.onerror *)
  bom_details : string → S → reply (list (string * string)) * S;
  status_text : Z → string                          (* r.statusText for r.status *)
}.
Arguments upload_ga {S}. Arguments resume_ga {S}. Arguments clear_ga_progress {S}.
Arguments status_text {S}.
Arguments job_status {S}. Arguments job_cancel {S}. Arguments balloon_results {S}.
Arguments ga_pages {S}. Arguments ga_image {S}. Arguments bom_details {S}.

(** ** What the client does that can be observed *)

Inductive alert_text : Type :=
  | SelectGAFile                       (* "Select GA file" *)
  | SelectGAFileFirst                  (* "Select GA file first" *)
  | ErrorUploadingGA (msg : string)    (* `Error uploading GA: ${error.message}` *)
  | ErrorResumingGA (msg : string)     (* `Error resuming GA: ${error.message}` *)
  | ErrorStartingFresh (msg : string)  (* `Error starting fresh: ${error.message}` *)
  | ErrorLoadingResults                (* "Error loading GA results. Please refresh and try again." *)
  | ProcessingError (msg : string)     (* `GA processing error: ${s.message || "Unknown error"}` *)
  | LostConnection                     (* "Lost connection to server. Please refresh and try again." *)
  | NotFoundInGA (find_number : string)(* `Item ${findNumber} is not found in the GA drawing. ...` *)
  | NoActiveProcessing                 (* "No active GA processing to cancel" *)
  | CancelledSuccessfully              (* "GA processing cancelled successfully" *)
  | CancelFailed                       (* "Failed to cancel processing. Please try again." *)
  | ProcessingStopped (status : string). (* older copies: "GA processing cancelled", ... *)

Inductive event : Type :=
  | Sent (r : request)                           (* fetch(..) *)
  | Beacon (r : request) (body : option string)  (* navigator.sendBeacon(url, body) *)
  | Alert (a : alert_text)
  | CachedNotice (detections pages : jsval)      (* "Loaded cached results: ..", success *)
  | AlsoAppearsOn (find_number : string) (pages : list Z) (* "Balloon .. also appears on .." *)
  | ResumeDialog (p : progress_data)
  | Rendered (p : Z)                             (* the page image was loaded *)
  | Highlighted (b : Balloon)
  | Progress (s : status_data)                   (* updateProgress(s) *)
  | UnloadPrompt.                                (* e.preventDefault() in beforeunload *)

(** The script's globals, the one localStorage key it polls with, and the
    trace of what it did. *)
Record client := {
  ga_job_id : option string;         (* localStorage "ga_job_id" *)
  gaPollTimer : option string;       (* the live interval and the id it polls *)
  isProcessingCompletion : bool;
  gaLoaded : bool;
  currentPage : Z;
  totalPages : Z;
  balloonMapping : gmap string (list Balloon);
  hasUnsavedChanges : bool;
  progressModal : bool;              (* #progressModal is displayed *)
  log : list event
}.

Definition set_ga_job_id (v : option string) (c : client) : client :=
  {| ga_job_id := v; gaPollTimer := gaPollTimer c;
     isProcessingCompletion := isProcessingCompletion c; gaLoaded := gaLoaded c;
     currentPage := currentPage c; totalPages := totalPages c;
     balloonMapping := balloonMapping c; hasUnsavedChanges := hasUnsavedChanges c;
     progressModal := progressModal c; log := log c |}.
Definition set_gaPollTimer (v : option string) (c : client) : client :=
  {| ga_job_id := ga_job_id c; gaPollTimer := v;
     isProcessingCompletion := isProcessingCompletion c; gaLoaded := gaLoaded c;
     currentPage := currentPage c; totalPages := totalPages c;
     balloonMapping := balloonMapping c; hasUnsavedChanges := hasUnsavedChanges c;
     progressModal := progressModal c; log := log c |}.
Definition set_isProcessingCompletion (v : bool) (c : client) : client :=
  {| ga_job_id := ga_job_id c; gaPollTimer := gaPollTimer c;
     isProcessingCompletion := v; gaLoaded := gaLoaded c;
     currentPage := currentPage c; totalPages := totalPages c;
     balloonMapping := balloonMapping c; hasUnsavedChanges := hasUnsavedChanges c;
     progressModal := progressModal c; log := log c |}.
Definition set_gaLoaded (v : bool) (c : client) : client :=
  {| ga_job_id := ga_job_id c; gaPollTimer := gaPollTimer c;
     isProcessingCompletion := isProcessingCompletion c; gaLoaded := v;
     currentPage := currentPage c; totalPages := totalPages c;
     balloonMapping := balloonMapping c; hasUnsavedChanges := hasUnsavedChanges c;
     progressModal := progressModal c; log := log c |}.
Definition set_currentPage (v : Z) (c : client) : client :=
  {| ga_job_id := ga_job_id c; gaPollTimer := gaPollTimer c;
     isProcessingCompletion := isProcessingCompletion c; gaLoaded := gaLoaded c;
     currentPage := v; totalPages := totalPages c;
     balloonMapping := balloonMapping c; hasUnsavedChanges := hasUnsavedChanges c;
     progressModal := progressModal c; log := log c |}.
Definition set_totalPages (v : Z) (c : client) : client :=
  {| ga_job_id := ga_job_id c; gaPollTimer := gaPollTimer c;
     isProcessingCompletion := isProcessingCompletion c; gaLoaded := gaLoaded c;
     currentPage := currentPage c; totalPages := v;
     balloonMapping := balloonMapping c; hasUnsavedChanges := hasUnsavedChanges c;
     progressModal := progressModal c; log := log c |}.
Definition set_balloonMapping (v : gmap string (list Balloon)) (c : client) : client :=
  {| ga_job_id := ga_job_id c; gaPollTimer := gaPollTimer c;
     isProcessingCompletion := isProcessingCompletion c; gaLoaded := gaLoaded c;
     currentPage := currentPage c; totalPages := totalPages c;
     balloonMapping := v; hasUnsavedChanges := hasUnsavedChanges c;
     progressModal := progressModal c; log := log c |}.
Definition set_progressModal (v : bool) (c : client) : client :=
  {| ga_job_id := ga_job_id c; gaPollTimer := gaPollTimer c;
     isProcessingCompletion := isProcessingCompletion c; gaLoaded := gaLoaded c;
     currentPage := currentPage c; totalPages := totalPages c;
     balloonMapping := balloonMapping c; hasUnsavedChanges := hasUnsavedChanges c;
     progressModal := v; log := log c |}.
Definition emit (e : event) (c : client) : client :=
  {| ga_job_id := ga_job_id c; gaPollTimer := gaPollTimer c;
     isProcessingCompletion := isProcessingCompletion c; gaLoaded := gaLoaded c;
     currentPage := currentPage c; totalPages := totalPages c;
     balloonMapping := balloonMapping c; hasUnsavedChanges := hasUnsavedChanges c;
     progressModal := progressModal c; log := (log c ++ [e])%list |}.

(** The page as it is when the script has just been loaded. *)
Definition fresh_client : client :=
  {| ga_job_id := None; gaPollTimer := None; isProcessingCompletion := false;
     gaLoaded := false; currentPage := 1; totalPages := 0; balloonMapping := ∅;
     hasUnsavedChanges := false; progressModal := false; log := [] |}.

(** ** A monad for handlers: state, the network, and exceptions *)

Section Monad.
Context {S : Type}.

Definition M (A : Type) : Type := client * S → outcome A * (client * S).

Definition ret {A} (a : A) : M A := λ w, (Done a, w).

Definition bind {A B} (m : M A) (k : A → M B) : M B := λ w,
  match m w with
  | (Done a, w') => k a w'
  | (Thrown e, w') => (Thrown e, w')
  end.

Definition throw {A} (msg : string) : M A := λ w, (Thrown msg, w).

(** [try { m } catch (error) { h error.message }] *)
Definition try_catch {A} (m : M A) (h : string → M A) : M A := λ w,
  match m w with
  | (Done a, w') => (Done a, w')
  | (Thrown e, w') => h e w'
  end.

(** [try { m } finally { f }] *)
Definition try_finally {A} (m : M A) (f : M unit) : M A := λ w,
  match m w with
  | (r, w') =>
      match f w' with
      | (Done _, w'') => (r, w'')
      | (Thrown e, w'') => (Thrown e, w'')
      end
  end.

Definition update (f : client → client) : M unit := λ w, (Done tt, (f w.1, w.2)).
Definition read {A} (f : client → A) : M A := λ w, (Done (f w.1), w).
Definition say (e : event) : M unit := update (emit e).

(** [await fetch(..)]: the request is recorded, the handler answers, and a
    network failure rejects with "Failed to fetch". *)
Definition fetch {A} (r : request) (h : S → reply A * S) : M (bool * Z * option A) := λ w,
  let c := emit (Sent r) w.1 in
  match h w.2 with
  | (NetworkError, s') => (Thrown "Failed to fetch", (c, s'))
  | (Response ok code data, s') => (Done (ok, code, data), (c, s'))
  end.

(** [if (!r.ok) throw new Error(`HTTP ${r.status}`)], then [await r.json()]. *)
Definition json_if_ok {A} (r : bool * Z * option A) : M A :=
  match r with
  | (false, code, _) => throw ("HTTP " +:+ pretty code)
  | (true, _, None) => throw "Unexpected token in JSON"
  | (true, _, Some d) => ret d
  end.

(** [if (!r.ok) throw new Error(`HTTP ${r.status}: ${r.statusText}`)], then
    [await r.json()]. *)
Definition json_if_ok_text {A} (statusText : Z → string) (r : bool * Z * option A)
  : M A :=
  match r with
  | (false, code, _) => throw ("HTTP " +:+ pretty code +:+ ": " +:+ statusText code)
  | (true, _, None) => throw "Unexpected token in JSON"
  | (true, _, Some d) => ret d
  end.

(** [await r.json()] without looking at [r.ok]. *)
Definition json_any {A} (r : bool * Z * option A) : M A :=
  match r with
  | (_, _, None) => throw "Unexpected token in JSON"
  | (_, _, Some d) => ret d
  end.
End Monad.

Notation "x <- m ; k" := (bind m (λ x, k))
  (at level 20, m at level 100, k at level 200, only parsing).
Notation "'exec' m ; k" := (bind m (λ _, k))
  (at level 20, m at level 100, k at level 200, only parsing).

(** ** crypto.subtle.digest and the hexadecimal text of a digest *)

(** The digest algorithms SubtleCrypto registers. *)
Inductive digest_alg : Type := SHA_1 | SHA_256 | SHA_384 | SHA_512.

Definition upper_ascii (c : ascii) : ascii :=
  if ((97 <=? nat_of_ascii c)%nat && (nat_of_ascii c <=? 122)%nat)%bool
  then ascii_of_nat (nat_of_ascii c - 32) else c.

Fixpoint uppercase (s : string) : string :=
  match s with
  | "" => ""
  | String c s' => String (upper_ascii c) (uppercase s')
  end.

(** Normalising an algorithm name for the [digest] operation: names are
    matched without regard to case, and a name that is not registered is
    refused with a NotSupportedError. *)
Definition normalize_algorithm (name : string) : option digest_alg :=
  let n := uppercase name in
  if bool_decide (n = "SHA-1") then Some SHA_1
  else if bool_decide (n = "SHA-256") then Some SHA_256
  else if bool_decide (n = "SHA-384") then Some SHA_384
  else if bool_decide (n = "SHA-512") then Some SHA_512
  else None.

Definition hex_digit (n : N) : ascii :=
  default "0"%char (String.get (N.to_nat n) "0123456789abcdef").

(** [b.toString(16)] for a byte [b]. *)
Definition toString16 (b : Byte.byte) : string :=
  let n := Byte.to_N b in
  if (n <? 16)%N then String (hex_digit n) ""
  else String (hex_digit (n / 16)) (String (hex_digit (n mod 16)) "").

Fixpoint repeat_char (n : nat) (c : ascii) : string :=
  match n with O => "" | Datatypes.S n' => String c (repeat_char n' c) end.

(** [s.padStart(len, c)] with a one-character filler. *)
Definition padStart (len : nat) (c : ascii) (s : string) : string :=
  repeat_char (len - String.length s) c +:+ s.

(** [hashArray.map(b => b.toString(16).padStart(2, '0')).join('')]. *)
Definition hex_of_bytes (hashArray : list Byte.byte) : string :=
  String.concat "" ((λ b, padStart 2 "0" (toString16 b)) <$> hashArray).

(** ** The cache + resume client (src/unnamed/part_000, lines 21-1439) *)

(** What the user answers in the resume dialog: the promise resolves with
    "resume", "fresh", or [null] ([None]). *)
Inductive resume_choice : Type := Resume | Fresh.

(** [if (jobId)] on what [localStorage.getItem] returned. *)
Definition stored_job (c : client) : option string :=
  match ga_job_id c with
  | Some id => if truthy (JStr id) then Some id else None
  | None => None
  end.

(** The globals after resetGAViewer, after stopPolling, and after
    [pollJob(id)]. *)
Definition reset_viewer (c : client) : client :=
  set_balloonMapping ∅ (set_totalPages 0 (set_currentPage 1 (set_gaLoaded false c))).

Definition stop_polling (c : client) : client :=
  set_isProcessingCompletion false (set_gaPollTimer None c).

Definition polling (id : string) (c : client) : client :=
  set_gaPollTimer (Some id) (stop_polling c).

(** The globals loadGA leaves when [/ga_pages] answers [{pages: n}]. *)
Definition ga_loaded (n : Z) (c : client) : client :=
  set_gaLoaded true (set_currentPage 1 (set_totalPages n c)).

Section Client.
Context {S : Type}.
Variable net : network S.
(** The hash functions behind [crypto.subtle.digest]. *)
Variable sha : digest_alg → list Byte.byte → list Byte.byte.
Variable SESSION_ID : string.

Local Abbreviation M := (@M S).

Definition showProgressModal : M unit := update (set_progressModal true).
Definition hideProgressModal : M unit := update (set_progressModal false).
Definition updateProgress (d : status_data) : M unit := say (Progress d).

(** part_000:1055-1073 *)
Definition resetGAViewer : M unit := update reset_viewer.

(** part_000:1076-1082 *)
Definition stopPolling : M unit := update stop_polling.

(** part_000:1244-1283: [img.src] is set; [onload] resolves, [onerror]
    rejects. *)
Definition renderPage (p : Z) : M unit := λ w,
  let c := emit (Sent (GaImage p)) w.1 in
  match ga_image net p w.2 with
  | (true, s') => (Done tt, (emit (Rendered p) c, s'))
  | (false, s') =>
      (Thrown ("Image load failed: page_" +:+ pretty p +:+ ".jpg"), (c, s'))
  end.

(** [balloonMapping = {}; d.forEach(...)] on the global: when an element
    raises, the global holds what was grouped before it. *)
Definition group_into_mapping
    (group : list (option Balloon) → outcome unit * gmap string (list Balloon))
    (d : list (option Balloon)) : M unit := λ w,
  ((group d).1, (set_balloonMapping (group d).2 w.1, w.2)).

(** part_000:1179-1215 *)
Definition loadBalloonMapping : M unit :=
  try_catch
    (r <- fetch BalloonResults (balloon_results net);
     d <- json_if_ok r;
     match d with
     | None => ret tt                     (* !Array.isArray(d) *)
     | Some l => group_into_mapping build_mapping l
     end)
    (λ e, throw e).

(** part_000:1217-1241 *)
Definition loadGA : M unit :=
  try_catch
    (r <- fetch GaPages (ga_pages net);
     d <- json_if_ok r;
     exec update (ga_loaded d);
     p <- read currentPage;
     renderPage p)
    (λ e, throw e).

(** part_000:1084-1143, the call itself: the old interval is dropped and a
    new one polls [id]. *)
Definition pollJob (id : string) : M unit :=
  exec stopPolling;
  update (set_gaPollTimer (Some id)).

Definition status_is (s : status_data) (name : string) : bool :=
  strict_eq (s_status s) (JStr name).

(** part_000:1087-1142, one firing of the interval's callback. *)
Definition poll_tick : M unit :=
  t <- read gaPollTimer;
  match t with
  | None => ret tt
  | Some id =>
      busy <- read isProcessingCompletion;
      if busy then ret tt else
      try_catch
        (r <- fetch (JobStatus id) (job_status net id);
         s <- json_if_ok r;
         exec updateProgress s;
         exec (if status_is s "complete" then
                 exec update (set_isProcessingCompletion true);
                 exec stopPolling;
                 exec update (set_ga_job_id None);
                 try_finally
                   (try_catch (exec loadBalloonMapping; loadGA)
                              (λ _, say (Alert ErrorLoadingResults)))
                   (exec hideProgressModal;
                    update (set_isProcessingCompletion false))
               else ret tt);
         exec (if status_is s "cancelled" then
                 exec stopPolling;
                 exec update (set_ga_job_id None);
                 hideProgressModal
               else ret tt);
         if status_is s "error" then
           exec stopPolling;
           exec update (set_ga_job_id None);
           exec hideProgressModal;
           say (Alert (ProcessingError
                         (if truthy (s_message s) then js_String (s_message s)
                          else "Unknown error")))
         else ret tt)
        (λ _, exec stopPolling; exec hideProgressModal; say (Alert LostConnection))
  end.

(** part_000:810-935: the dialog shows the fields of [progressData]; the
    promise resolves with the button the user pressed. *)
Definition showResumeDialog (progressData : option progress_data)
    (pressed : option resume_choice) : M (option resume_choice) :=
  match progressData with
  | None => throw "Cannot read properties of undefined"
  | Some p => exec say (ResumeDialog p); ret pressed
  end.

(** part_000:939-975 *)
Definition resumeGAProcessing (file : File) (fileHash : jsval) : M unit :=
  exec resetGAViewer;
  exec showProgressModal;
  try_catch
    (r <- fetch (ResumeGA file) (resume_ga net file);
     job_id <- json_if_ok_text (status_text net) r;
     exec update (set_ga_job_id (Some (js_String job_id)));
     pollJob (js_String job_id))
    (λ e, exec hideProgressModal; say (Alert (ErrorResumingGA e))).

(** part_000:979-1027 *)
Definition startFreshGAProcessing (file : File) (fileHash : jsval) : M unit :=
  exec try_catch
         (_ <- fetch (ClearProgress (js_String fileHash))
                     (clear_ga_progress net (js_String fileHash));
          ret tt)
         (λ _, ret tt);
  exec resetGAViewer;
  exec showProgressModal;
  try_catch
    (r <- fetch (UploadGA file true) (upload_ga net file true);
     data <- json_if_ok_text (status_text net) r;
     exec update (set_ga_job_id (Some (js_String (u_job_id data))));
     pollJob (js_String (u_job_id data)))
    (λ e, exec hideProgressModal; say (Alert (ErrorStartingFresh e))).

(** part_000:730-806.  [file] is the chosen file, if any; [pressed] is what
    the user answers if the resume dialog comes up. *)
Definition uploadGA (file : option File) (pressed : option resume_choice)
  : M unit :=
  match file with
  | None => say (Alert SelectGAFile)
  | Some file =>
      try_catch
        (r <- fetch (UploadGA file false) (upload_ga net file false);
         data <- json_if_ok_text (status_text net) r;
         if strict_eq (u_status data) (JStr "cached") then
           exec hideProgressModal;
           exec loadBalloonMapping;
           exec loadGA;
           say (CachedNotice (u_detections data) (u_pages data))
         else if strict_eq (u_status data) (JStr "resumable") then
           resumeChoice <- showResumeDialog (u_progress_data data) pressed;
           match resumeChoice with
           | Some Resume => resumeGAProcessing file (u_file_hash data)
           | Some Fresh => startFreshGAProcessing file (u_file_hash data)
           | None => ret tt
           end
         else if truthy (u_job_id data) then
           exec resetGAViewer;
           exec showProgressModal;
           exec update (set_ga_job_id (Some (js_String (u_job_id data))));
           pollJob (js_String (u_job_id data))
         else ret tt)
        (λ e, exec hideProgressModal; say (Alert (ErrorUploadingGA e)))
  end.

(** [await crypto.subtle.digest(name, data)]. *)
Definition subtle_digest (name : string) (data : list Byte.byte)
  : M (list Byte.byte) :=
  match normalize_algorithm name with
  | Some a => ret (sha a data)
  | None => throw "NotSupportedError"
  end.

(** part_000:1031-1051; [confirmed] is the answer to [window.confirm]. *)
Definition forceReprocessGA (file : option File) (confirmed : bool) : M unit :=
  match file with
  | None => say (Alert SelectGAFileFirst)
  | Some file =>
      if negb confirmed then ret tt else
      hashBuffer <- subtle_digest "MD5" (file_bytes file);
      startFreshGAProcessing file (JStr (hex_of_bytes hashBuffer))
  end.

(** part_000:1146-1176 *)
Definition cancelGAProcessing : M unit :=
  c <- read stored_job;
  match c with
  | None => say (Alert NoActiveProcessing)
  | Some jobId =>
      try_catch
        (r <- fetch (JobCancel jobId) (job_cancel net jobId);
         if r.1.1 then
           exec update (set_ga_job_id None);
           exec stopPolling;
           exec hideProgressModal;
           say (Alert CancelledSuccessfully)
         else throw ("HTTP " +:+ pretty r.1.2))
        (λ _, say (Alert CancelFailed))
  end.

(** part_000:166-184, the "beforeunload" listener.  The beacon's body is
    the JSON object holding the session id. *)
Definition beforeunload : M unit :=
  c <- read stored_job;
  exec match c with
       | Some jobId =>
           exec say (Beacon (JobCancel jobId) (Some SESSION_ID));
           update (set_ga_job_id None)
       | None => ret tt
       end;
  unsaved <- read hasUnsavedChanges;
  if unsaved then say UnloadPrompt else ret tt.

(** part_000:667-690, the second half of loadDetails: the balloons of a
    FIND NUMBER.  [!entries || entries.length === 0] lets an inherited
    member through unless it is a function of length 0. *)
Definition locate_balloon (findNumber : jsval) : M unit :=
  loaded <- read gaLoaded;
  if negb loaded then ret tt else
  m <- read balloonMapping;
  match get_property m (js_String findNumber) with
  | Absent => say (Alert (NotFoundInGA (js_String findNumber)))
  | Own [] => say (Alert (NotFoundInGA (js_String findNumber)))
  | Inherited (Some 0) => say (Alert (NotFoundInGA (js_String findNumber)))
  | Inherited _ => throw "entries.sort is not a function"
  | Own entries =>
      let sorted := array_sort by_page entries in
      exec update (set_balloonMapping (<[js_String findNumber := sorted]> m));
      match sorted with
      | [] => throw "Cannot read properties of undefined"
      | firstOccurrence :: others =>
          exec update (set_currentPage (page_num firstOccurrence));
          exec renderPage (page_num firstOccurrence);
          exec say (Highlighted firstOccurrence);
          if bool_decide (others = []) then ret tt
          else say (AlsoAppearsOn (js_String findNumber) (page_num <$> others))
      end
  end.

(** part_000:634-691.  An empty details object returns before the GA half;
    a failed details request does not. *)
Definition loadDetails (findNumber : jsval) : M unit :=
  stop <- try_catch
            (r <- fetch (BomDetails (js_String findNumber))
                        (bom_details net (js_String findNumber));
             d <- json_if_ok r;
             ret (bool_decide (d = [])))
            (λ _, ret false);
  if (stop : bool) then ret tt else locate_balloon findNumber.

(** part_000:1301-1309 *)
Definition prevPage : M unit :=
  loaded <- read gaLoaded;
  p <- read currentPage;
  if negb loaded || (p <=? 1) then ret tt else
  exec update (set_currentPage (p - 1));
  try_catch (renderPage (p - 1)) (λ _, ret tt).

(** part_000:1311-1319 *)
Definition nextPage : M unit :=
  loaded <- read gaLoaded;
  p <- read currentPage;
  n <- read totalPages;
  if negb loaded || (p >=? n) then ret tt else
  exec update (set_currentPage (p + 1));
  try_catch (renderPage (p + 1)) (λ _, ret tt).
End Client.

(** ** The older copies of the script *)

(** src/frontend/script.js, first copy (lines 1-434): one balloon per
    number, no stored job id. *)
Module ScriptJs1.
(** The object [balloonMapping] of this copy: its own properties, and the
    balloon that an assignment to [__proto__] made its prototype, if any. *)
Record object_map := {
  own : gmap string Balloon;
  prototype : option Balloon
}.

(** script.js:300, [balloonMapping[b.balloon_number] = b]: [null] has no
    [balloon_number]; the key [__proto__] sets the prototype, every other
    key an own property. *)
Definition assign (m : object_map) (b : option Balloon) : outcome object_map :=
  match b with
  | None => Thrown "Cannot read properties of null (reading 'balloon_number')"
  | Some b =>
      let k := js_String (balloon_number b) in
      if bool_decide (k = "__proto__")
      then Done {| own := own m; prototype := Some b |}
      else Done {| own := <[k := b]> (own m); prototype := prototype m |}
  end.

Fixpoint assign_each (m : object_map) (d : list (option Balloon))
  : outcome unit * object_map :=
  match d with
  | [] => (Done tt, m)
  | b :: d' =>
      match assign m b with
      | Done m' => assign_each m' d'
      | Thrown e => (Thrown e, m)
      end
  end.

(** script.js:296-301: [balloonMapping = {}; d.forEach(...)]. *)
Definition build_mapping (d : list (option Balloon)) : outcome unit * object_map :=
  assign_each {| own := ∅; prototype := None |} d.

(** What [balloonMapping[findNumber]] gives.  An own property is a balloon
    of the results.  Without one the name is looked up along the prototype
    chain: in the balloon that an assignment to [__proto__] made the
    prototype, if any, and in [Object.prototype] behind it; what comes back
    from there is a field of that balloon, a member of [Object.prototype],
    or undefined when neither has the name.  With no such balloon and a name
    that [Object.prototype] does not have, the lookup gives undefined. *)
Inductive looked_up : Type :=
  | Found (b : Balloon)     (* an own property *)
  | Up_the_chain            (* whatever the prototype chain gives *)
  | Missing.                (* undefined *)

(** script.js:256-257: [balloonMapping[findNumber]]; nothing is shown when
    it is undefined. *)
Definition locate_balloon (m : object_map) (findNumber : jsval) : looked_up :=
  match own m !! js_String findNumber with
  | Some b => Found b
  | None =>
      if inherited (js_String findNumber) || bool_decide (is_Some (prototype m))
      then Up_the_chain else Missing
  end.

Section Handlers.
Context {S : Type}.
Variable net : network S.
Local Abbreviation M := (@M S).

(** script.js:319-354: the promise resolves on [onload] and there is no
    [onerror]; the callers do not wait for it. *)
Definition renderPage (p : Z) : M unit := λ w,
  let c := emit (Sent (GaImage p)) w.1 in
  match ga_image net p w.2 with
  | (true, s') => (Done tt, (emit (Rendered p) c, s'))
  | (false, s') => (Done tt, (c, s'))
  end.

(** script.js:372-377 *)
Definition nextPage : M unit :=
  p <- read currentPage;
  n <- read totalPages;
  if p <? n then
    exec update (set_currentPage (p + 1));
    renderPage (p + 1)
  else ret tt.

(** script.js:379-384 *)
Definition prevPage : M unit :=
  p <- read currentPage;
  if p >? 1 then
    exec update (set_currentPage (p - 1));
    renderPage (p - 1)
  else ret tt.
End Handlers.
End ScriptJs1.

(** src/frontend/script.js, second copy (lines 434-1195): the listeners that
    cancel the job when the page goes away. *)
Module ScriptJs2.
Section Handlers.
Context {S : Type}.
Variable net : network S.
Local Abbreviation M := (@M S).

(** script.js:974-980 *)
Definition beforeunload : M unit :=
  c <- read stored_job;
  match c with
  | Some jobId =>
      exec say (Beacon (JobCancel jobId) None);
      update (set_ga_job_id None)
  | None => ret tt
  end.

(** script.js:996-1002 *)
Definition pagehide : M unit :=
  c <- read stored_job;
  match c with
  | Some jobId =>
      exec say (Beacon (JobCancel jobId) None);
      update (set_ga_job_id None)
  | None => ret tt
  end.

(** script.js:982-994: a keep-alive POST, and a beacon if it fails. *)
Definition visibilitychange (hidden : bool) : M unit :=
  if negb hidden then ret tt else
  c <- read stored_job;
  match c with
  | Some jobId =>
      try_catch
        (_ <- fetch (JobCancel jobId) (job_cancel net jobId); ret tt)
        (λ _, say (Beacon (JobCancel jobId) None))
  | None => ret tt
  end.

(** The events of unloading a document, in the order of the HTML
    standard: the prompt-to-unload step fires beforeunload; unloading
    fires pagehide and then makes the document hidden. *)
Definition unload : M unit :=
  exec beforeunload;
  exec pagehide;
  visibilitychange true.
End Handlers.
End ScriptJs2.

(** src/unnamed/part_000, second script (lines 1439-1864). *)
Module Part000b.
Section Handlers.
Context {S : Type}.
Variable net : network S.
Local Abbreviation M := (@M S).

(** part_000:1804-1808, the body of the forEach: every object is grouped,
    there is no guard. *)
Definition group (m : gmap string (list Balloon)) (b : option Balloon)
  : outcome (gmap string (list Balloon)) :=
  match b with
  | None => Thrown "Cannot read properties of null (reading 'balloon_number')"
  | Some b => push_under m (js_String (balloon_number b)) b
  end.

(** part_000:1800-1809: the mapping is emptied before the answer is walked
    through. *)
Definition loadBalloonMapping : M unit :=
  r <- fetch BalloonResults (balloon_results net);
  d <- json_any r;
  match d with
  | None => exec update (set_balloonMapping ∅); throw "d.forEach is not a function"
  | Some l => group_into_mapping (for_each group ∅) l
  end.

(** part_000:1812-1820; renderPage is not waited for. *)
Definition loadGA : M unit :=
  r <- fetch GaPages (ga_pages net);
  d <- json_any r;
  exec update (λ c, set_gaLoaded true (set_currentPage 1 (set_totalPages d c)));
  ScriptJs1.renderPage net 1.

(** part_000:1753-1788, one firing of the interval's callback. *)
Definition poll_tick : M unit :=
  t <- read gaPollTimer;
  match t with
  | None => ret tt
  | Some id =>
      try_catch
        (r <- fetch (JobStatus id) (job_status net id);
         s <- json_any r;
         exec updateProgress s;
         exec (if status_is s "complete" then
                 exec update (set_gaPollTimer None);
                 exec update (set_ga_job_id None);
                 exec loadBalloonMapping;
                 exec loadGA;
                 hideProgressModal
               else ret tt);
         exec (if status_is s "cancelled" then
                 exec update (set_gaPollTimer None);
                 exec update (set_ga_job_id None);
                 exec hideProgressModal;
                 say (Alert (ProcessingStopped "cancelled"))
               else ret tt);
         if status_is s "failed" then
           exec update (set_gaPollTimer None);
           exec update (set_ga_job_id None);
           exec hideProgressModal;
           say (Alert (ProcessingStopped "failed"))
         else ret tt)
        (λ _, exec update (set_gaPollTimer None); hideProgressModal)
  end.
End Handlers.
End Part000b.

(** ** The job handlers of the second copy of script.js
       (src/frontend/script.js, lines 885-972 and 1005-1025) *)

Module ScriptJs2Jobs.
Section Handlers.
Context {S : Type}.
Variable net : network S.
Local Abbreviation M := (@M S).

(** script.js:1005-1014, the text of part_000:1800-1809. *)
Definition loadBalloonMapping : M unit := Part000b.loadBalloonMapping net.

(** script.js:1016-1024, the text of part_000:1812-1820; renderPage
    (script.js:1027-1053) has no [onerror] and is not waited for. *)
Definition loadGA : M unit := Part000b.loadGA net.

(** script.js:925-926, the call itself. *)
Definition pollJob (id : string) : M unit := update (set_gaPollTimer (Some id)).

(** script.js:885-901: [localStorage.setItem] stores the text of
    [d.job_id]. *)
Definition uploadGA (file : option File) : M unit :=
  match file with
  | None => say (Alert SelectGAFile)
  | Some file =>
      exec resetGAViewer;
      exec showProgressModal;
      r <- fetch (UploadGA file false) (upload_ga net file false);
      d <- json_any r;
      exec update (set_ga_job_id (Some (js_String (u_job_id d))));
      pollJob (js_String (u_job_id d))
  end.

(** script.js:928-951, one firing of the interval's callback. *)
Definition poll_tick : M unit :=
  t <- read gaPollTimer;
  match t with
  | None => ret tt
  | Some id =>
      try_catch
        (r <- fetch (JobStatus id) (job_status net id);
         s <- json_any r;
         exec updateProgress s;
         exec (if status_is s "complete" then
                 exec update (set_gaPollTimer None);
                 exec update (set_ga_job_id None);
                 exec loadBalloonMapping;
                 exec loadGA;
                 hideProgressModal
               else ret tt);
         if status_is s "cancelled" || status_is s "error" then
           exec update (set_gaPollTimer None);
           exec update (set_ga_job_id None);
           exec hideProgressModal;
           say (Alert (ProcessingStopped (js_String (s_status s))))
         else ret tt)
        (λ _, exec update (set_gaPollTimer None); hideProgressModal)
  end.

(** script.js:956-972 *)
Definition cancelGAProcessing : M unit :=
  c <- read stored_job;
  match c with
  | None => say (Alert NoActiveProcessing)
  | Some jobId =>
      try_catch
        (_ <- fetch (JobCancel jobId) (job_cancel net jobId);
         exec update (set_ga_job_id None);
         exec update (set_gaPollTimer None);
         exec hideProgressModal;
         say (Alert (ProcessingStopped "cancelled")))
        (λ _, ret tt)
  end.
End Handlers.
End ScriptJs2Jobs.

(** ** HTML: serialising a text node and tokenizing a fragment *)

Module Html.
Definition dq : ascii := ascii_of_nat 34.     (* the double quote *)
Definition sq : ascii := ascii_of_nat 39.     (* the single quote *)
Definition nbsp : ascii := ascii_of_nat 160.  (* U+00A0 *)
Definition CR : ascii := ascii_of_nat 13.
Definition LF : ascii := ascii_of_nat 10.
Definition NUL : ascii := ascii_of_nat 0.

(** A double-quoted attribute value in a template. *)
Definition q (s : string) : string := String dq (s +:+ String dq "").

(** Escaping a string when [innerHTML] serialises a text node (not in
    attribute mode): ampersand, U+00A0, less-than and greater-than are
    replaced, every other character is kept. *)
Definition escape_char (c : ascii) : string :=
  if Ascii.eqb c "&" then "&amp;"
  else if Ascii.eqb c nbsp then "&nbsp;"
  else if Ascii.eqb c "<" then "&lt;"
  else if Ascii.eqb c ">" then "&gt;"
  else String c "".

Fixpoint escape (s : string) : string :=
  match s with
  | "" => ""
  | String c s' => escape_char c +:+ escape s'
  end.

(** part_000:610-614: [div.textContent = str; return div.innerHTML]. *)
Definition sanitizeHTML (str : string) : string := escape str.

(** *** The tokenizer

    The states and transitions of the HTML tokenizer that tags with
    attributes, text and character references go through.  Left out:
    comments, doctypes and CDATA (a markup declaration is skipped up to
    the next greater-than sign), script and RCDATA content, numeric
    character references, and the named references outside
    [named_references]. *)

Record tag := {
  is_end : bool;
  tag_name : string;
  attrs : list (string * string);
  self_closing : bool
}.

Inductive token : Type :=
  | Character (c : ascii)
  | Tag (t : tag).

Inductive state : Type :=
  | Data
  | TagOpen
  | EndTagOpen
  | TagName (t : tag)
  | BeforeAttributeName (t : tag)
  | AttributeName (t : tag) (name : string)
  | AfterAttributeName (t : tag) (name : string)
  | BeforeAttributeValue (t : tag) (name : string)
  | AttributeValueDoubleQuoted (t : tag) (name value : string)
  | AttributeValueSingleQuoted (t : tag) (name value : string)
  | AttributeValueUnquoted (t : tag) (name value : string)
  | AfterAttributeValueQuoted (t : tag)
  | SelfClosingStartTag (t : tag)
  | BogusComment.

Definition named_references : list (string * ascii) :=
  [("amp;", "&"%char); ("lt;", "<"%char); ("gt;", ">"%char);
   ("quot;", dq); ("nbsp;", nbsp)].

Fixpoint is_prefix (p s : string) : bool :=
  match p, s with
  | "", _ => true
  | String a p', String b s' => Ascii.eqb a b && is_prefix p' s'
  | _, _ => false
  end.

(** The reference the text after an ampersand starts with: the character
    it stands for and how many characters it takes. *)
Fixpoint match_reference (refs : list (string * ascii)) (rest : string)
  : option (ascii * nat) :=
  match refs with
  | [] => None
  | (name, c) :: refs' =>
      if is_prefix name rest then Some (c, String.length name)
      else match_reference refs' rest
  end.

Definition is_whitespace (c : ascii) : bool :=
  Ascii.eqb c (ascii_of_nat 9) || Ascii.eqb c LF
  || Ascii.eqb c (ascii_of_nat 12) || Ascii.eqb c " ".

Definition is_upper (c : ascii) : bool :=
  (65 <=? nat_of_ascii c)%nat && (nat_of_ascii c <=? 90)%nat.
Definition is_alpha (c : ascii) : bool :=
  is_upper c || ((97 <=? nat_of_ascii c)%nat && (nat_of_ascii c <=? 122)%nat).
Definition lower (c : ascii) : ascii :=
  if is_upper c then ascii_of_nat (nat_of_ascii c + 32) else c.

Definition snoc (s : string) (c : ascii) : string := s +:+ String c "".

Definition new_tag (e : bool) : tag :=
  {| is_end := e; tag_name := ""; attrs := []; self_closing := false |}.
Definition name_snoc (t : tag) (c : ascii) : tag :=
  {| is_end := is_end t; tag_name := snoc (tag_name t) c; attrs := attrs t;
     self_closing := self_closing t |}.
(** An attribute whose name the tag already has is dropped. *)
Definition add_attr (t : tag) (name value : string) : tag :=
  {| is_end := is_end t; tag_name := tag_name t;
     attrs := if bool_decide (name ∈ (fst <$> attrs t)) then attrs t
              else (attrs t ++ [(name, value)])%list;
     self_closing := self_closing t |}.
Definition close_self (t : tag) : tag :=
  {| is_end := is_end t; tag_name := tag_name t; attrs := attrs t;
     self_closing := true |}.

(** The result of consuming one character: the next state, the tokens
    emitted, and how many of the following characters were consumed with
    it (the rest of a character reference). *)
Definition result : Type := state * list token * nat.
Definition go (s : state) : result := (s, [], O).
Definition emit_tag (t : tag) : result := (Data, [Tag t], O).

Definition in_attribute_name (t : tag) (name : string) (c : ascii) : result :=
  if Ascii.eqb c "=" then go (BeforeAttributeValue t name)
  else go (AttributeName t (snoc name (lower c))).

Definition after_attribute_name (t : tag) (name : string) (c : ascii) : result :=
  if is_whitespace c then go (AfterAttributeName t name)
  else if Ascii.eqb c "/" then go (SelfClosingStartTag (add_attr t name ""))
  else if Ascii.eqb c "=" then go (BeforeAttributeValue t name)
  else if Ascii.eqb c ">" then emit_tag (add_attr t name "")
  else in_attribute_name (add_attr t name "") "" c.

Definition before_attribute_name (t : tag) (c : ascii) : result :=
  if is_whitespace c then go (BeforeAttributeName t)
  else if Ascii.eqb c "/" then go (SelfClosingStartTag t)
  else if Ascii.eqb c ">" then emit_tag t
  else if Ascii.eqb c "=" then go (AttributeName t "=")
  else in_attribute_name t "" c.

Definition reference_in (rest : string) : ascii * nat :=
  default ("&"%char, O) (match_reference named_references rest).

Definition step (s : state) (c : ascii) (rest : string) : result :=
  match s with
  | Data =>
      if Ascii.eqb c "&" then
        let r := reference_in rest in (Data, [Character r.1], r.2)
      else if Ascii.eqb c "<" then go TagOpen
      else (Data, [Character c], O)
  | TagOpen =>
      if Ascii.eqb c "!" || Ascii.eqb c "?" then go BogusComment
      else if Ascii.eqb c "/" then go EndTagOpen
      else if is_alpha c then go (TagName (name_snoc (new_tag false) (lower c)))
      else if Ascii.eqb c "&" then
        let r := reference_in rest in
        (Data, [Character "<"; Character r.1], r.2)
      else if Ascii.eqb c "<" then (TagOpen, [Character "<"], O)
      else (Data, [Character "<"; Character c], O)
  | EndTagOpen =>
      if is_alpha c then go (TagName (name_snoc (new_tag true) (lower c)))
      else if Ascii.eqb c ">" then go Data
      else go BogusComment
  | TagName t =>
      if is_whitespace c then go (BeforeAttributeName t)
      else if Ascii.eqb c "/" then go (SelfClosingStartTag t)
      else if Ascii.eqb c ">" then emit_tag t
      else go (TagName (name_snoc t (lower c)))
  | BeforeAttributeName t => before_attribute_name t c
  | AttributeName t name =>
      if is_whitespace c || Ascii.eqb c "/" || Ascii.eqb c ">"
      then after_attribute_name t name c
      else in_attribute_name t name c
  | AfterAttributeName t name => after_attribute_name t name c
  | BeforeAttributeValue t name =>
      if is_whitespace c then go (BeforeAttributeValue t name)
      else if Ascii.eqb c dq then go (AttributeValueDoubleQuoted t name "")
      else if Ascii.eqb c sq then go (AttributeValueSingleQuoted t name "")
      else if Ascii.eqb c ">" then emit_tag (add_attr t name "")
      else if Ascii.eqb c "&" then
        let r := reference_in rest in
        (AttributeValueUnquoted t name (String r.1 ""), [], r.2)
      else go (AttributeValueUnquoted t name (String c ""))
  | AttributeValueDoubleQuoted t name value =>
      if Ascii.eqb c dq then go (AfterAttributeValueQuoted (add_attr t name value))
      else if Ascii.eqb c "&" then
        let r := reference_in rest in
        (AttributeValueDoubleQuoted t name (snoc value r.1), [], r.2)
      else go (AttributeValueDoubleQuoted t name (snoc value c))
  | AttributeValueSingleQuoted t name value =>
      if Ascii.eqb c sq then go (AfterAttributeValueQuoted (add_attr t name value))
      else if Ascii.eqb c "&" then
        let r := reference_in rest in
        (AttributeValueSingleQuoted t name (snoc value r.1), [], r.2)
      else go (AttributeValueSingleQuoted t name (snoc value c))
  | AttributeValueUnquoted t name value =>
      if is_whitespace c then go (BeforeAttributeName (add_attr t name value))
      else if Ascii.eqb c ">" then emit_tag (add_attr t name value)
      else if Ascii.eqb c "&" then
        let r := reference_in rest in
        (AttributeValueUnquoted t name (snoc value r.1), [], r.2)
      else go (AttributeValueUnquoted t name (snoc value c))
  | AfterAttributeValueQuoted t =>
      if is_whitespace c then go (BeforeAttributeName t)
      else if Ascii.eqb c "/" then go (SelfClosingStartTag t)
      else if Ascii.eqb c ">" then emit_tag t
      else before_attribute_name t c
  | SelfClosingStartTag t =>
      if Ascii.eqb c ">" then emit_tag (close_self t)
      else before_attribute_name t c
  | BogusComment =>
      if Ascii.eqb c ">" then go Data else go BogusComment
  end.

(** The tokens of [input] from state [s], after [skip] characters that
    were already consumed.  At the end of the input an unfinished tag is
    dropped. *)
Fixpoint run (s : state) (skip : nat) (input : string) : list token :=
  match input with
  | "" => match s with TagOpen => [Character "<"] | _ => [] end
  | String c rest =>
      match skip with
      | Datatypes.S k => run s k rest
      | O => let r := step s c rest in (r.1.2 ++ run r.1.1 r.2 rest)%list
      end
  end.

(** Preprocessing the input stream: CR LF and a lone CR become LF. *)
Fixpoint normalize_newlines (s : string) : string :=
  match s with
  | "" => ""
  | String c rest =>
      if Ascii.eqb c CR then
        match rest with
        | String c' rest' =>
            if Ascii.eqb c' LF then String LF (normalize_newlines rest')
            else String LF (normalize_newlines rest)
        | "" => String LF ""
        end
      else String c (normalize_newlines rest)
  end.

(** [element.innerHTML = html], as a token stream. *)
Definition tokenize (html : string) : list token :=
  run Data O (normalize_newlines html).

(** The text the tokens put into the tree; tree construction ignores a
    U+0000 character in body content. *)
Fixpoint textContent (ts : list token) : string :=
  match ts with
  | [] => ""
  | Character c :: ts' =>
      if Ascii.eqb c NUL then textContent ts' else String c (textContent ts')
  | Tag _ :: ts' => textContent ts'
  end.

(** The attributes of the start tags called [name], in document order. *)
Definition start_tags (name : string) (ts : list token) : list (list (string * string)) :=
  omap (λ t, match t with
             | Tag t => if negb (is_end t) && bool_decide (tag_name t = name)
                        then Some (attrs t) else None
             | Character _ => None
             end) ts.

(** The texts of the [td] cells: what stands between a [td] start tag and
    the next [td] end tag. *)
Fixpoint cells (inside : option string) (ts : list token) : list string :=
  match ts with
  | [] => []
  | Character c :: ts' =>
      match inside with
      | Some s => cells (Some (if Ascii.eqb c NUL then s else snoc s c)) ts'
      | None => cells None ts'
      end
  | Tag t :: ts' =>
      if bool_decide (tag_name t = "td") then
        if is_end t then
          match inside with
          | Some s => s :: cells None ts'
          | None => cells None ts'
          end
        else cells (Some "") ts'
      else cells inside ts'
  end.

(** An entry of [checklistData]. *)
Record item := {
  FIND_NUMBER : jsval;
  PART_DESCRIPTION : jsval;
  status : jsval;
  remarks : jsval
}.

Definition selected_if (b : bool) : string := if b then "selected" else "".

(** part_000:537-564: the row markup assigned to [tr.innerHTML] (the
    camera glyph of the button label is left out). *)
Definition row_html (it : item) (index : nat) : string :=
  let findNumber := sanitizeHTML (or_empty (FIND_NUMBER it)) in
  let partDesc := sanitizeHTML (or_empty (PART_DESCRIPTION it)) in
  let i := q (pretty index) in
  String.concat (String LF "") [
    "";
    "      <td>" +:+ findNumber +:+ "</td>";
    "      <td>" +:+ partDesc +:+ "</td>";
    "      <td>";
    "        <select class=" +:+ q "status-select" +:+ " data-index=" +:+ i +:+ ">";
    "          <option value=" +:+ q "" +:+ ">-</option>";
    "          <option value=" +:+ q "OK" +:+ " "
      +:+ selected_if (strict_eq (status it) (JStr "OK")) +:+ ">OK</option>";
    "          <option value=" +:+ q "NOT OK" +:+ " "
      +:+ selected_if (strict_eq (status it) (JStr "NOT OK")) +:+ ">NOT OK</option>";
    "        </select>";
    "      </td>";
    "      <td>";
    "        <input class=" +:+ q "remarks-input" +:+ " data-index=" +:+ i
      +:+ " placeholder=" +:+ q "Remarks"
      +:+ " value=" +:+ q (sanitizeHTML (or_empty (remarks it))) +:+ ">";
    "      </td>";
    "      <td>";
    "        <button class=" +:+ q "scan-btn" +:+ " data-index=" +:+ i +:+ "> Scan</button>";
    "        <input ";
    "          type=" +:+ q "file";
    "          accept=" +:+ q "image/*";
    "          capture=" +:+ q "environment";
    "          class=" +:+ q "scan-input";
    "          data-index=" +:+ i;
    "          style=" +:+ q "display:none";
    "        />";
    "      </td>";
    "    "
  ].

(** The attributes of the remarks input of a rendered row. *)
Definition remarks_input (it : item) (index : nat) : option (list (string * string)) :=
  head (start_tags "input" (tokenize (row_html it index))).
End Html.

(** ** The engine behind the endpoints

    The server that answers the client is not among the repository's files
    under src/.  Its stores, its job state machine and its upload decision
    are modelled from the specification (sections 3, 4.1-4.6). *)

Module Server.
(** Modelled from the spec: the job states of section 4.4,
    [queued → running → {complete | cancelled | error}]. *)
Inductive job_state : Type := queued | running | complete | cancelled | error.

Global Instance job_state_eq_dec : EqDecision job_state.
Proof. solve_decision. Defined.

(** Modelled from the spec: the rejections of section 7. *)
Inductive failure : Type := Conflict | NotFound | InvalidInput.

(** Modelled from the spec: CacheEntry of section 3; the content hash is
    its key in the store. *)
Record CacheEntry := { page_count : nat; detections : list Balloon }.

(** Modelled from the spec: Checkpoint of section 3, keyed by the content
    hash. *)
Record Checkpoint := {
  cp_processed_pages : nat;
  cp_total_pages : nat;
  cp_balloons_so_far : list Balloon;
  cp_last_update : nat
}.

(** Modelled from the spec: Job of section 3, keyed by its job id. *)
Record Job := {
  hash : string;
  owner_session : string;
  state : job_state;
  from_page : nat;
  job_total_pages : nat;
  job_processed_pages : nat;
  cancel_requested : bool;
  message : string
}.

(** Modelled from the spec: the durable stores and the registries of jobs and
    sessions (sections 2 and 9), with a clock for [last_update]. *)
Record store := {
  cache : gmap string CacheEntry;
  checkpoints : gmap string Checkpoint;
  jobs : gmap N Job;
  sessions : gmap string N;     (* session id ↦ active job id *)
  clock : nat
}.

(** Modelled from the spec: empty at startup (section 9). *)
Definition startup : store :=
  {| cache := ∅; checkpoints := ∅; jobs := ∅; sessions := ∅; clock := O |}.

(** Modelled from the spec: the terminal states of section 4.4. *)
Definition terminal (st : job_state) : bool :=
  match st with
  | complete | cancelled | error => true
  | queued | running => false
  end.

(** Modelled from the spec: writes to one of the stores. *)
Definition with_cache (f : gmap string CacheEntry → gmap string CacheEntry)
    (s : store) : store :=
  {| cache := f (cache s); checkpoints := checkpoints s; jobs := jobs s;
     sessions := sessions s; clock := clock s |}.
(** Modelled from the spec: a checkpoint write also advances the clock. *)
Definition with_checkpoints (f : gmap string Checkpoint → gmap string Checkpoint)
    (s : store) : store :=
  {| cache := cache s; checkpoints := f (checkpoints s); jobs := jobs s;
     sessions := sessions s; clock := S (clock s) |}.
(** Modelled from the spec: the status record of a job is replaced. *)
Definition with_job (id : N) (j : Job) (s : store) : store :=
  {| cache := cache s; checkpoints := checkpoints s; jobs := <[id := j]> (jobs s);
     sessions := sessions s; clock := clock s |}.
(** Modelled from the spec: a session has at most one active job
    (section 4.5). *)
Definition with_session (sess : string) (id : N) (s : store) : store :=
  {| cache := cache s; checkpoints := checkpoints s; jobs := jobs s;
     sessions := <[sess := id]> (sessions s); clock := clock s |}.

(** Modelled from the spec: a state transition of a job, with its message. *)
Definition set_state (st : job_state) (msg : string) (j : Job) : Job :=
  {| hash := hash j; owner_session := owner_session j; state := st;
     from_page := from_page j; job_total_pages := job_total_pages j;
     job_processed_pages := job_processed_pages j;
     cancel_requested := cancel_requested j; message := msg |}.
(** Modelled from the spec: the progress of a job after a page. *)
Definition set_processed (n : nat) (j : Job) : Job :=
  {| hash := hash j; owner_session := owner_session j; state := state j;
     from_page := from_page j; job_total_pages := job_total_pages j;
     job_processed_pages := n;
     cancel_requested := cancel_requested j; message := message j |}.
(** Modelled from the spec: the cooperative cancellation flag. *)
Definition request_cancel (j : Job) : Job :=
  {| hash := hash j; owner_session := owner_session j; state := state j;
     from_page := from_page j; job_total_pages := job_total_pages j;
     job_processed_pages := job_processed_pages j;
     cancel_requested := true; message := message j |}.

(** Modelled from the spec: CacheStore.lookup (section 4.2). *)
Definition lookup (h : string) (s : store) : option CacheEntry := cache s !! h.

(** Modelled from the spec: CacheStore.finalize (section 4.2); a later
    finalize of the same hash overwrites the entry. *)
Definition finalize (h : string) (pages : nat) (ds : list Balloon) (s : store)
  : store :=
  with_cache <[h := {| page_count := pages; detections := ds |}]> s.

(** Modelled from the spec: ProgressCheckpoint.read (section 4.3). *)
Definition read_checkpoint (h : string) (s : store) : option Checkpoint :=
  checkpoints s !! h.

(** Modelled from the spec: ProgressCheckpoint.append (section 4.3); the
    first page of a run creates the checkpoint. *)
Definition append (h : string) (total : nat) (balloons_for_page : list Balloon)
    (s : store) : store :=
  let old := default {| cp_processed_pages := O; cp_total_pages := total;
                        cp_balloons_so_far := []; cp_last_update := O |}
                     (checkpoints s !! h) in
  with_checkpoints
    <[h := {| cp_processed_pages := S (cp_processed_pages old);
              cp_total_pages := cp_total_pages old;
              cp_balloons_so_far :=
                (cp_balloons_so_far old ++ balloons_for_page)%list;
              cp_last_update := clock s |}]> s.
(** Modelled from the spec: ProgressCheckpoint.clear (section 4.3). *)
Definition clear (h : string) (s : store) : store :=
  with_checkpoints (delete h) s.

(** Modelled from the spec: a running job owns [h] (section 4.4). *)
Definition owned (h : string) (s : store) : bool :=
  bool_decide (map_Exists (λ _ j, hash j = h ∧ state j = running) (jobs s)).

(** Modelled from the spec: a job as [start] and [resume] create it. *)
Definition new_job (h sess : string) (from total done : nat) : Job :=
  {| hash := h; owner_session := sess; state := queued; from_page := from;
     job_total_pages := total; job_processed_pages := done;
     cancel_requested := false; message := "" |}.

(** Modelled from the spec: the new job gets an id no job has, and becomes
    the active job of its session. *)
Definition enqueue (j : Job) (s : store) : N * store :=
  let id : N := fresh (dom (jobs s)) in
  (id, with_session (owner_session j) id (with_job id j s)).

(** Modelled from the spec: JobManager.start (section 4.4). *)
Definition start (h sess : string) (total : nat) (s : store)
  : (failure + N) * store :=
  if owned h s then (inl Conflict, s)
  else let r := enqueue (new_job h sess 1 total 0) s in (inr r.1, r.2).

(** Modelled from the spec: JobManager.resume (sections 4.4 and 5). *)
Definition resume (h sess : string) (s : store) : (failure + N) * store :=
  match read_checkpoint h s with
  | None => (inl NotFound, s)
  | Some cp =>
      if owned h s then (inl Conflict, s)
      else
        let r := enqueue (new_job h sess (S (cp_processed_pages cp))
                            (cp_total_pages cp) (cp_processed_pages cp)) s in
        (inr r.1, r.2)
  end.

(** Modelled from the spec: JobManager.cancel (section 4.4). *)
Definition cancel (id : N) (s : store) : store :=
  match jobs s !! id with
  | Some j => if terminal (state j) then s else with_job id (request_cancel j) s
  | None => s
  end.

(** Modelled from the spec: JobManager.status (section 4.4), a pure read. *)
Definition status (id : N) (s : store) : option Job := jobs s !! id.

Section Engine.
(** Modelled from the spec: ContentAddresser (section 4.1), the page
    count of an upload ([None]: unreadable, InvalidInput), and the
    DetectionPipeline of section 6 ([None]: the page fails). *)
Variable computeHash : list Byte.byte → string.
Variable pages_of : list Byte.byte → option nat.
Variable detect : string → nat → option (list Balloon).

(** Modelled from the spec: one turn of the run loop of section 4.4. *)
Definition run_step (id : N) (s : store) : store :=
  match jobs s !! id with
  | None => s
  | Some j =>
      match state j with
      | queued =>
          if owned (hash j) s then s
          else with_job id (set_state running "" j) s
      | running =>
          if (job_processed_pages j <? job_total_pages j)%nat then
            if cancel_requested j then
              with_job id (set_state cancelled "" j) s
            else
              match detect (hash j) (S (job_processed_pages j)) with
              | Some bs =>
                  with_job id (set_processed (S (job_processed_pages j)) j)
                    (append (hash j) (job_total_pages j) bs s)
              | None =>
                  with_job id (set_state error "page processing failed" j) s
              end
          else
            let found := default [] (cp_balloons_so_far <$> read_checkpoint (hash j) s) in
            with_job id (set_state complete "" j)
              (clear (hash j) (finalize (hash j) (job_total_pages j) found s))
      | complete | cancelled | error => s
      end
  end.

(** Modelled from the spec: the answers of upload-and-decide (sections 4.6
    and 6) and its rejections (section 7). *)
Inductive decision : Type :=
  | Cached (pages detections_count : nat)
  | Resumable (h : string) (cp : Checkpoint)
  | Started (job_id : N)
  | Rejected (e : failure).

(** Modelled from the spec: step 4 of section 4.6, "clear any existing
    checkpoint for hash if force-fresh, then start". *)
Definition start_run (bytes : list Byte.byte) (sess : string)
    (force : bool) (s : store) : decision * store :=
  match pages_of bytes with
  | None => (Rejected InvalidInput, s)
  | Some n =>
      let h := computeHash bytes in
      match start h sess n (if force then clear h s else s) with
      | (inr id, s') => (Started id, s')
      | (inl e, s') => (Rejected e, s')
      end
  end.

(** Modelled from the spec: the upload decision protocol, section 4.6. *)
Definition upload_decide (bytes : list Byte.byte) (sess : string)
    (force : bool) (s : store) : decision * store :=
  let h := computeHash bytes in
  match lookup h s with
  | Some e =>
      if force then start_run bytes sess force s
      else (Cached (page_count e) (length (detections e)), s)
  | None =>
      match read_checkpoint h s with
      | Some cp =>
          if force then start_run bytes sess force s
          else (Resumable h cp, s)
      | None => start_run bytes sess force s
      end
  end.

(** Modelled from the spec: every operation that changes the stores. *)
Inductive op : Type :=
  | Upload (bytes : list Byte.byte) (sess : string) (force : bool)
  | Resume (bytes : list Byte.byte) (sess : string)
  | ClearCheckpoint (h : string)
  | CancelJob (id : N)
  | RunStep (id : N).

(** Modelled from the spec: the store after an operation. *)
Definition apply (o : op) (s : store) : store :=
  match o with
  | Upload bytes sess force => (upload_decide bytes sess force s).2
  | Resume bytes sess => (resume (computeHash bytes) sess s).2
  | ClearCheckpoint h => clear h s
  | CancelJob id => cancel id s
  | RunStep id => run_step id s
  end.

(** Modelled from the spec: job ids are unique texts. *)
Definition job_name (id : N) : string := "job-" +:+ pretty id.

(** Modelled from the spec: the JSON of a decision, under the field names
    the client reads (part_000:755-795, 844-871). *)

Definition encode (d : decision) : reply upload_data :=
  match d with
  | Cached pages n =>
      Response true 200
        (Some {| u_status := JStr "cached"; u_detections := JNum (Z.of_nat n);
                 u_pages := JNum (Z.of_nat pages); u_progress_data := None;
                 u_file_hash := JUndefined; u_job_id := JUndefined |})
  | Resumable h cp =>
      Response true 200
        (Some {| u_status := JStr "resumable"; u_detections := JUndefined;
                 u_pages := JUndefined;
                 u_progress_data := Some
                   {| processed_pages := JNum (Z.of_nat (cp_processed_pages cp));
                      total_pages := JNum (Z.of_nat (cp_total_pages cp));
                      progress_percent :=
                        JNum (Z.of_nat (cp_processed_pages cp) * 100
                              / Z.of_nat (cp_total_pages cp));
                      balloons_so_far :=
                        JNum (Z.of_nat (length (cp_balloons_so_far cp)));
                      last_update := JNum (Z.of_nat (cp_last_update cp));
                      remaining_pages :=
                        JNum (Z.of_nat (cp_total_pages cp - cp_processed_pages cp)) |};
                 u_file_hash := JStr h; u_job_id := JUndefined |})
  | Started id =>
      Response true 200
        (Some {| u_status := JUndefined; u_detections := JUndefined;
                 u_pages := JUndefined; u_progress_data := None;
                 u_file_hash := JUndefined; u_job_id := JStr (job_name id) |})
  | Rejected Conflict => Response false 409 None
  | Rejected NotFound => Response false 404 None
  | Rejected InvalidInput => Response false 400 None
  end.

(** Modelled from the spec: POST /upload/ga for the session [sess]. *)
Definition handle_upload (sess : string) (f : File) (force : bool) (s : store)
  : reply upload_data * store :=
  let r := upload_decide (file_bytes f) sess force s in (encode r.1, r.2).
End Engine.
End Server.

(** ** Networks for the worked examples *)

(** The usual status texts. *)
Definition reason_phrase (code : Z) : string :=
  if code =? 200 then "OK"
  else if code =? 400 then "Bad Request"
  else if code =? 404 then "Not Found"
  else if code =? 409 then "Conflict"
  else if code =? 500 then "Internal Server Error"
  else "".

(** A network without state that answers every endpoint the same way each
    time. *)
Definition canned (up : bool → reply upload_data) (res : reply jsval)
    (st : reply status_data) (bal : reply (option (list Balloon)))
    (pages : reply Z) (img : bool) : network unit :=
  {| upload_ga := λ _ force s, (up force, s);
     resume_ga := λ _ s, (res, s);
     clear_ga_progress := λ _ s, (Response true 200 (Some tt), s);
     job_status := λ _ s, (st, s);
     job_cancel := λ _ s, (Response true 200 (Some tt), s);
     balloon_results :=
       λ s, (match bal with
             | NetworkError => NetworkError
             | Response ok code None => Response ok code None
             | Response ok code (Some None) => Response ok code (Some None)
             | Response ok code (Some (Some d)) =>
                 Response ok code (Some (Some (Some <$> d)))
             end, s);
     ga_pages := λ s, (pages, s);
     ga_image := λ _ s, (img, s);
     bom_details := λ _ s, (Response true 200 (Some []), s);
     status_text := reason_phrase |}.

(** No server at all: every request fails. *)
Definition offline : network unit :=
  {| upload_ga := λ _ _ s, (NetworkError, s);
     resume_ga := λ _ s, (NetworkError, s);
     clear_ga_progress := λ _ s, (NetworkError, s);
     job_status := λ _ s, (NetworkError, s);
     job_cancel := λ _ s, (NetworkError, s);
     balloon_results := λ s, (NetworkError, s);
     ga_pages := λ s, (NetworkError, s);
     ga_image := λ _ s, (false, s);
     bom_details := λ _ s, (NetworkError, s);
     status_text := reason_phrase |}.

(** The drawing of the specification's scenario: balloon 12 on pages 1 and
    3, balloon 7 on page 2. *)
Definition box (n : Z) : BBox := {| x1 := n; y1 := n; x2 := n + 10; y2 := n + 10 |}.
Definition balloon (number page : Z) (b : BBox) : Balloon :=
  {| balloon_number := JNum number; page := Some page; bbox := Some b |}.
Definition scenario : list Balloon :=
  [balloon 12 1 (box 100); balloon 7 2 (box 200); balloon 12 3 (box 300)].

(** The scenario as the array of [/balloon_results]. *)
Definition scenario_results : list (option Balloon) := Some <$> scenario.

(** The balloons the loader keeps under the key [k]. *)
Definition kept (k : string) (b : Balloon) : bool :=
  negb (invalid_balloon b) && bool_decide (js_String (balloon_number b) = k).

(** The balloons of [d] the loader keeps under the key of [n]. *)
Definition matches (n : jsval) (b : Balloon) : bool := kept (js_String n) b.

(** What a key holds after more balloons were pushed under it. *)
Definition pushed (o : option (list Balloon)) (l : list Balloon)
  : option (list Balloon) :=
  match o, l with
  | None, [] => None
  | _, _ => Some (default [] o ++ l)%list
  end.

(** The objects among the elements of a results array. *)
Definition objects (d : list (option Balloon)) : list Balloon := omap id d.

(** The join as the client computes it: the kept balloons of the FIND
    NUMBER, sorted by page. *)
Definition join (d : list (option Balloon)) (n : jsval) : list Balloon :=
  array_sort by_page (filter (λ b, matches n b = true) (objects d)).

(** The join as the specification words it: the balloons whose number equals
    the FIND NUMBER, sorted by page. *)
Definition join_as_specified (d : list (option Balloon)) (n : jsval)
  : list Balloon :=
  array_sort by_page
    (filter (λ b, js_String (balloon_number b) = js_String n) (objects d)).

(** The viewer once loadBalloonMapping has walked through the results [d]
    and the drawing is loaded. *)
Definition loaded (d : list (option Balloon)) (c : client) : client :=
  set_gaLoaded true (set_balloonMapping (build_mapping d).2 c).

(** A results array the loader gets through: no element is [null], and no
    balloon that passes the guard is labelled with a name objects
    inherit. *)
Definition loads (d : list (option Balloon)) : Prop :=
  Forall (λ e, ∃ b, e = Some b
                    ∧ (invalid_balloon b = false
                       → inherited (js_String (balloon_number b)) = false)) d.

(** The labels of the balloons of [d] that are numbers are safe
    integers. *)
Definition safe_labels (d : list (option Balloon)) : Prop :=
  Forall (λ b, safe_number (balloon_number b)) (objects d).

(** A balloon numbered 0. *)
Definition balloon_zero : Balloon := balloon 0 1 (box 5).

(** A balloon whose label is the word constructor. *)
Definition balloon_constructor : Balloon :=
  {| balloon_number := JStr "constructor"; page := Some 1; bbox := Some (box 5) |}.

(** A server whose results are the one array [d]. *)
Definition results_server (d : list (option Balloon)) : network unit :=
  {| upload_ga := λ _ _ s, (NetworkError, s);
     resume_ga := λ _ s, (NetworkError, s);
     clear_ga_progress := λ _ s, (NetworkError, s);
     job_status := λ _ s, (NetworkError, s);
     job_cancel := λ _ s, (NetworkError, s);
     balloon_results := λ s, (Response true 200 (Some (Some d)), s);
     ga_pages := λ s, (Response true 200 (Some 3), s);
     ga_image := λ _ s, (true, s);
     bom_details := λ _ s, (NetworkError, s);
     status_text := reason_phrase |}.

(** The requests among the events of a trace. *)
Definition requests (l : list event) : list request :=
  omap (λ e, match e with Sent r => Some r | _ => None end) l.

(** The signals that ask the server to cancel a job. *)
Definition cancel_signals (l : list event) : list string :=
  omap (λ e, match e with
             | Sent (JobCancel id) | Beacon (JobCancel id) _ => Some id
             | _ => None
             end) l.

(** The requests that create a job or poll one. *)
Definition job_request (r : request) : bool :=
  match r with
  | UploadGA _ true | ResumeGA _ | JobStatus _ => true
  | _ => false
  end.

(** Page turns, for sequences of them. *)
Inductive turn : Type := Next | Prev.

Definition turn_page {S} (net : network S) (t : turn) (w : client * S) : client * S :=
  match t with
  | Next => (nextPage net w).2
  | Prev => (prevPage net w).2
  end.

Definition turn_page_old {S} (net : network S) (t : turn) (w : client * S) : client * S :=
  match t with
  | Next => (ScriptJs1.nextPage net w).2
  | Prev => (ScriptJs1.prevPage net w).2
  end.

Definition turn_pages {S} (net : network S) (ts : list turn) (w : client * S)
  : client * S :=
  foldl (λ w t, turn_page net t w) w ts.

Definition turn_pages_old {S} (net : network S) (ts : list turn) (w : client * S)
  : client * S :=
  foldl (λ w t, turn_page_old net t w) w ts.

(** What every page turn keeps. *)
Definition in_range {S} (n : Z) (w : client * S) : Prop :=
  gaLoaded w.1 = true ∧ totalPages w.1 = n ∧ 1 ≤ currentPage w.1 ≤ n.

Definition in_range_old {S} (n : Z) (w : client * S) : Prop :=
  totalPages w.1 = n ∧ 1 ≤ currentPage w.1 ≤ n.

(** What C9 says of a viewer [c0] in which a drawing of [n] pages was just
    loaded, for the page turns [ts]. *)
Definition pages_stay_in_range {S} (net : network S) (n : Z) (c0 : client)
    (s : S) (ts : list turn) : Prop :=
  (1 ≤ currentPage (turn_pages net ts (ga_loaded n c0, s)).1 ≤ n)
  ∧ (1 ≤ currentPage (turn_pages_old net ts (ga_loaded n c0, s)).1 ≤ n)
  ∧ (∀ c s', currentPage c = totalPages c →
             nextPage net (c, s') = (Done tt, (c, s'))
             ∧ ScriptJs1.nextPage net (c, s') = (Done tt, (c, s')))
  ∧ (∀ c s', currentPage c = 1 →
             prevPage net (c, s') = (Done tt, (c, s'))
             ∧ ScriptJs1.prevPage net (c, s') = (Done tt, (c, s'))).

(** Between [c] and [c'] no job id was stored, no polling was started, and
    no request that creates or polls a job was sent. *)
Definition no_job_between (c c' : client) : Prop :=
  ga_job_id c' = ga_job_id c
  ∧ gaPollTimer c' = gaPollTimer c
  ∧ ∃ l, log c' = (log c ++ l)%list
         ∧ Forall (λ r, job_request r = false) (requests l).

(** What uploadGA does with the answer [data] of an upload that the server
    accepted, [s1] being the server's state after it. *)
Definition upload_outcome {S} (net : network S) (file : File)
    (pressed : option resume_choice) (c : client) (s : S)
    (data : upload_data) (s1 : S) : Prop :=
  let r := uploadGA net (Some file) pressed (c, s) in
  let c1 := emit (Sent (UploadGA file false)) c in
  if strict_eq (u_status data) (JStr "cached") then
    no_job_between c r.2.1
    ∧ ∀ code1 d m s2 code2 n s3 s4,
        balloon_results net s1 = (Response true code1 (Some (Some d)), s2) →
        build_mapping d = (Done tt, m) → safe_labels d →
        ga_pages net s2 = (Response true code2 (Some n), s3) →
        ga_image net 1 s3 = (true, s4) →
        r = (Done tt,
             (emit (CachedNotice (u_detections data) (u_pages data))
                (emit (Rendered 1) (emit (Sent (GaImage 1))
                   (ga_loaded n (emit (Sent GaPages)
                      (set_balloonMapping m
                         (emit (Sent BalloonResults)
                            (set_progressModal false c1))))))), s4))
  else if strict_eq (u_status data) (JStr "resumable") then
    match u_progress_data data, pressed with
    | Some p, None => r = (Done tt, (emit (ResumeDialog p) c1, s1))
    | Some p, Some Resume =>
        r = resumeGAProcessing net file (u_file_hash data)
              (emit (ResumeDialog p) c1, s1)
    | Some p, Some Fresh =>
        r = startFreshGAProcessing net file (u_file_hash data)
              (emit (ResumeDialog p) c1, s1)
    | None, _ =>
        ∃ msg, r = (Done tt,
                    (emit (Alert (ErrorUploadingGA msg))
                       (set_progressModal false c1), s1))
    end
  else if truthy (u_job_id data) then
    safe_number (u_job_id data) →
    r = (Done tt,
         (polling (js_String (u_job_id data))
            (set_ga_job_id (Some (js_String (u_job_id data)))
               (set_progressModal true (reset_viewer c1))), s1))
  else r = (Done tt, (c1, s1)).

(** What uploadGA does when the upload is refused or fails: the message of
    the error is shown, the progress dialog closed, and nothing else is
    touched.  For an answer that is not ok the message is the one uploadGA
    itself makes, of the status and the status text. *)
Definition refusal_outcome {S} (net : network S) (file : File)
    (pressed : option resume_choice) (c : client) (s : S)
    (answer : reply upload_data) (s1 : S) : Prop :=
  ∃ msg,
    uploadGA net (Some file) pressed (c, s)
    = (Done tt,
       (emit (Alert (ErrorUploadingGA msg))
          (set_progressModal false (emit (Sent (UploadGA file false)) c)), s1))
    ∧ ∀ code body, answer = Response false code body →
        msg = "HTTP " +:+ pretty code +:+ ": " +:+ status_text net code.

(** The client acted on one of the three outcomes C2 names: it announced
    cached results, or showed the resume dialog, or stored and polls a
    job. *)
Definition acted_on_one_of_three (c c' : client) : Prop :=
  (∃ detections pages,
     CachedNotice detections pages ∈ drop (length (log c)) (log c'))
  ∨ (∃ p, ResumeDialog p ∈ drop (length (log c)) (log c'))
  ∨ (∃ id, ga_job_id c' = Some id ∧ gaPollTimer c' = Some id).

(** A server that refuses every upload with a conflict. *)
Definition conflict_server : network unit :=
  canned (λ _, Response false 409 None) NetworkError NetworkError
    NetworkError NetworkError false.

(** The answers of the worked examples. *)
Definition cached_answer : upload_data :=
  {| u_status := JStr "cached"; u_detections := JNum 3; u_pages := JNum 3;
     u_progress_data := None; u_file_hash := JUndefined; u_job_id := JUndefined |}.

Definition drawing : File := {| file_name := "ga.pdf"; file_bytes := [] |}.

Definition status_answer (name : string) : status_data :=
  {| s_status := JStr name; s_progress := JNum 100; s_message := JUndefined |}.

(** The text the status endpoint gives for a job state. *)
Definition state_name (st : Server.job_state) : string :=
  match st with
  | Server.queued => "queued"
  | Server.running => "running"
  | Server.complete => "complete"
  | Server.cancelled => "cancelled"
  | Server.error => "error"
  end.

(** The poller after a poll that told it the job has ended. *)
Definition poll_stopped (c : client) : client :=
  set_progressModal false (set_ga_job_id None (stop_polling c)).

(** What one firing of the poller does with the status [data] the server
    reported for job [id]. *)
Definition poll_outcome {S} (net : network S) (id : string) (c : client)
    (s : S) (data : status_data) (s1 : S) : Prop :=
  let r := poll_tick net (c, s) in
  let c1 := emit (Progress data) (emit (Sent (JobStatus id)) c) in
  if status_is data "complete" then
    r.1 = Done tt
    ∧ gaPollTimer r.2.1 = None
    ∧ ga_job_id r.2.1 = None
    ∧ (∃ l, log r.2.1 = (log c1 ++ Sent BalloonResults :: l)%list)
    ∧ ∀ code1 d m s2 code2 n s3 s4,
        balloon_results net s1 = (Response true code1 (Some (Some d)), s2) →
        build_mapping d = (Done tt, m) → safe_labels d →
        ga_pages net s2 = (Response true code2 (Some n), s3) →
        ga_image net 1 s3 = (true, s4) →
        r = (Done tt,
             (set_isProcessingCompletion false (set_progressModal false
                (emit (Rendered 1) (emit (Sent (GaImage 1))
                   (ga_loaded n (emit (Sent GaPages)
                      (set_balloonMapping m
                         (emit (Sent BalloonResults)
                            (set_ga_job_id None
                               (stop_polling
                                  (set_isProcessingCompletion true c1)))))))))), s4))
  else if status_is data "cancelled" then
    r = (Done tt, (poll_stopped c1, s1))
  else if status_is data "error" then
    safe_number (s_message data) →
    r = (Done tt,
         (emit (Alert (ProcessingError
                         (if truthy (s_message data) then js_String (s_message data)
                          else "Unknown error")))
            (poll_stopped c1), s1))
  else r = (Done tt, (c1, s1)).

(** What C4 says of the engine: the terminal states are complete,
    cancelled and error, and no operation changes a job that is in one. *)
Definition terminal_states_are_final (computeHash : list Byte.byte → string)
    (pages_of : list Byte.byte → option nat)
    (detect : string → nat → option (list Balloon)) : Prop :=
  (∀ st, Server.terminal st = true
         ↔ st = Server.complete ∨ st = Server.cancelled ∨ st = Server.error)
  ∧ (∀ o srv id j,
       Server.jobs srv !! id = Some j →
       Server.terminal (Server.state j) = true →
       Server.jobs (Server.apply computeHash pages_of detect o srv) !! id = Some j)
  ∧ (∀ st, status_is (status_answer (state_name st)) "complete"
           || status_is (status_answer (state_name st)) "cancelled"
           || status_is (status_answer (state_name st)) "error"
           = Server.terminal st).

(** [k] uploads of the same file, one after the other, without the force
    flag: the answers and the store they leave. *)
Fixpoint reuploads (computeHash : list Byte.byte → string)
    (pages_of : list Byte.byte → option nat) (sess : string) (f : File)
    (k : nat) (s : Server.store) : list (reply upload_data) * Server.store :=
  match k with
  | O => ([], s)
  | Datatypes.S k' =>
      let r := Server.handle_upload computeHash pages_of sess f false s in
      let rs := reuploads computeHash pages_of sess f k' r.2 in
      (r.1 :: rs.1, rs.2)
  end.

(** The answer "cached" for a cache entry. *)
Definition cached_reply (e : Server.CacheEntry) : reply upload_data :=
  Server.encode (Server.Cached (Server.page_count e)
                   (length (Server.detections e))).

(** What C3 says of the re-uploads of a file whose hash has the cache entry
    [e] in the store [s]. *)
Definition cache_is_idempotent (computeHash : list Byte.byte → string)
    (pages_of : list Byte.byte → option nat) (sess : string) (f : File)
    (e : Server.CacheEntry) (s : Server.store) : Prop :=
  (∀ k, reuploads computeHash pages_of sess f k s
        = (replicate k (cached_reply e), s))
  ∧ (∀ S (net : network S) pressed c s0 s1,
       upload_ga net f false s0 = (cached_reply e, s1) →
       no_job_between c (uploadGA net (Some f) pressed (c, s0)).2.1).

(** An engine for the scenario of the specification: a toy content hash
    (the exclusive-or of the bytes, in hexadecimal), three pages, and the
    balloons of [scenario] page by page. *)
Definition toy_hash (bytes : list Byte.byte) : string :=
  hex_of_bytes
    [default Byte.x00
       (Byte.of_N (foldr (λ b acc, N.lxor (Byte.to_N b) acc) 0%N bytes))].
Definition toy_pages (bytes : list Byte.byte) : option nat := Some 3%nat.
Definition toy_detect (h : string) (p : nat) : option (list Balloon) :=
  Some (filter (λ b, page_num b = Z.of_nat p) scenario).

Definition run_steps (id : N) (k : nat) (s : Server.store) : Server.store :=
  Nat.iter k (Server.run_step toy_detect id) s.

(** The store after the drawing was uploaded once and its job ran to the
    end. *)
Definition store_after_run : Server.store :=
  run_steps 0 5
    (Server.upload_decide toy_hash toy_pages (file_bytes drawing) "session-1"
       false Server.startup).2.

(** Text without U+000D and U+0000, the two characters the HTML parser
    itself rewrites. *)
Definition plain_text (s : string) : bool :=
  forallb (λ c, negb (Ascii.eqb c Html.CR) && negb (Ascii.eqb c Html.NUL))
    (String.list_ascii_of_string s).

(** A checklist row whose remark holds a double quote: 12, the inch sign,
    and the word rail. *)
Definition inch_remark : string := "12" +:+ String Html.dq " rail".

Definition inch_row : Html.item :=
  {| Html.FIND_NUMBER := JStr "12"; Html.PART_DESCRIPTION := JStr "DIN rail";
     Html.status := JStr "OK"; Html.remarks := JStr inch_remark |}.

(** A remark that closes the attribute and opens one of its own. *)
Definition handler_remark : string :=
  "x" +:+ String Html.dq " onfocus=" +:+ String Html.dq "alert(1)".

Definition handler_row : Html.item :=
  {| Html.FIND_NUMBER := JStr "7"; Html.PART_DESCRIPTION := JStr "MCB <16A> & cover";
     Html.status := JUndefined; Html.remarks := JStr handler_remark |}.

(** The value of the attribute [name] in a list of attributes. *)
Definition attribute (name : string) (l : list (string * string)) : option string :=
  (λ r, r.2.2) <$> list_find (λ a, a.1 = name) l.

(** Ascending page order. *)
Definition page_le (a b : Balloon) : Prop := page_num a ≤ page_num b.

(** A checkpoint summary and the answers around it, for the examples. *)
Definition two_of_three : progress_data :=
  {| processed_pages := JNum 2; total_pages := JNum 3; progress_percent := JNum 66;
     balloons_so_far := JNum 2; last_update := JNum 1700000000;
     remaining_pages := JNum 1 |}.

Definition resumable_answer : upload_data :=
  {| u_status := JStr "resumable"; u_detections := JUndefined; u_pages := JUndefined;
     u_progress_data := Some two_of_three; u_file_hash := JStr "9e107d9d";
     u_job_id := JUndefined |}.

Definition job_answer (id : string) : upload_data :=
  {| u_status := JUndefined; u_detections := JUndefined; u_pages := JUndefined;
     u_progress_data := None; u_file_hash := JUndefined; u_job_id := JStr id |}.

(** A server that finds a checkpoint on a plain upload and starts job-2 on a
    forced one. *)
Definition resumable_server : network unit :=
  canned (λ force, Response true 200
                     (Some (if force then job_answer "job-2" else resumable_answer)))
    (Response true 200 (Some (JStr "job-3"))) NetworkError NetworkError
    NetworkError false.

(** A server whose status endpoint reports that the job ended in error. *)
Definition error_server : network unit :=
  canned (λ _, NetworkError) NetworkError
    (Response true 200 (Some (status_answer "error")))
    NetworkError NetworkError false.

(** The client while it polls job-7: the id is stored and the progress
    dialog is open. *)
Definition polling_job7 : client :=
  polling "job-7"
    (set_progressModal true (set_ga_job_id (Some "job-7") fresh_client)).

(* ===================================================================== *)
(** * Part II: properties *)
(* ===================================================================== *)

(** ** Sorting *)

Section Sorting.
Context {A : Type} (cmp : A → A → Z).

Lemma sort_insert_perm x l : sort_insert cmp x l ≡ₚ x :: l.
Proof.
  induction l as [|y l IH]; simpl; [done|].
  destruct (cmp x y <=? 0); [done|].
  rewrite IH. apply Permutation_swap.
Qed.

Lemma array_sort_perm l : array_sort cmp l ≡ₚ l.
Proof.
  induction l as [|x l IH]; simpl; [done|].
  rewrite sort_insert_perm. by rewrite IH.
Qed.

Lemma array_sort_nil l : array_sort cmp l = [] ↔ l = [].
Proof.
  split; [|by intros ->].
  intros H. apply Permutation_nil_r. rewrite <- H. by rewrite array_sort_perm.
Qed.

Lemma array_sort_length l : length (array_sort cmp l) = length l.
Proof. by rewrite array_sort_perm. Qed.
End Sorting.

Lemma sort_insert_sorted x l :
  Sorted page_le l → Sorted page_le (sort_insert by_page x l).
Proof.
  induction 1 as [|y l Hl IH Hhd]; simpl.
  - by repeat constructor.
  - destruct (by_page x y <=? 0) eqn:E.
    + apply Z.leb_le in E. constructor; [by constructor|].
      constructor. unfold page_le, by_page in *. lia.
    + apply Z.leb_gt in E. constructor; [done|].
      destruct Hhd as [|z l' Hyz]; simpl.
      * constructor. unfold page_le, by_page in *. lia.
      * destruct (by_page x z <=? 0); constructor;
          unfold page_le, by_page in *; lia.
  Qed.

Lemma array_sort_sorted l : Sorted page_le (array_sort by_page l).
Proof.
  induction l as [|x l IH]; simpl; [constructor|].
  by apply sort_insert_sorted.
Qed.

(** The sort is stable: the balloons of one page keep their order. *)
Lemma sort_insert_stable p x l :
  filter (λ y, page_num y = p) (sort_insert by_page x l)
  = filter (λ y, page_num y = p) (x :: l).
Proof.
  induction l as [|y l IH]; simpl; [done|].
  destruct (by_page x y <=? 0) eqn:E; [done|].
  apply Z.leb_gt in E. unfold by_page in E.
  rewrite (filter_cons _ y (sort_insert _ _ _)), IH.
  rewrite !filter_cons.
  repeat case_decide; try done; lia.
Qed.

Lemma array_sort_stable p l :
  filter (λ y, page_num y = p) (array_sort by_page l)
  = filter (λ y, page_num y = p) l.
Proof.
  induction l as [|x l IH]; simpl; [done|].
  rewrite sort_insert_stable, !filter_cons. by rewrite IH.
Qed.

(** ** The balloon mapping *)

Lemma find_inherited (k : string) :
  list_find (λ p : string * option Z, p.1 = k) object_prototype = None
  ↔ inherited k = false.
Proof.
  unfold inherited. rewrite bool_decide_eq_false, list_find_None, Forall_forall.
  rewrite list_elem_of_fmap. split.
  - intros H (p & -> & Hp). by apply (H p).
  - intros H p Hp Hk. apply H. by exists p.
Qed.

Lemma get_property_own {A} (m : gmap string A) (k : string) :
  inherited k = false →
  get_property m k = match m !! k with Some a => Own a | None => Absent end.
Proof.
  intros H%find_inherited. unfold get_property. by rewrite H.
Qed.

Lemma kept_spec k b :
  kept k b = true ↔
  truthy (balloon_number b) = true ∧ page_truthy (page b) = true
  ∧ is_Some (bbox b) ∧ js_String (balloon_number b) = k.
Proof.
  unfold kept, invalid_balloon.
  rewrite andb_true_iff, negb_true_iff, !orb_false_iff, !negb_false_iff,
    !bool_decide_eq_true.
  naive_solver.
Qed.

(** No own property of the mapping has a name objects inherit. *)
Definition own_names (m : gmap string (list Balloon)) : Prop :=
  ∀ k, is_Some (m !! k) → inherited k = false.

Lemma push_under_done m k b :
  own_names m →
  match push_under m k b with
  | Done m' =>
      (inherited k = false ∨ is_Some (m !! k))
      ∧ m' = <[k := (default [] (m !! k) ++ [b])%list]> m ∧ own_names m'
  | Thrown _ => inherited k = true ∧ m !! k = None
  end.
Proof.
  intros Hm. unfold push_under, get_property.
  destruct (m !! k) as [l|] eqn:E.
  - split; [by eauto|]. split; [done|].
    intros k' Hk'. destruct (decide (k' = k)) as [->|Hne]; [apply Hm; by eauto|].
    rewrite lookup_insert_ne in Hk' by done. by apply Hm.
  - destruct (list_find _ object_prototype) as [[i [name length]]|] eqn:Ef.
    + split; [|done]. destruct (inherited k) eqn:Ei; [done|].
      apply find_inherited in Ei. congruence.
    + apply find_inherited in Ef. split; [by left|]. split; [done|].
      intros k' Hk'. destruct (decide (k' = k)) as [->|Hne]; [done|].
      rewrite lookup_insert_ne in Hk' by done. by apply Hm.
Qed.

Lemma add_balloon_lookup m b m' k :
  own_names m →
  add_balloon m (Some b) = Done m' →
  own_names m'
  ∧ m' !! k = if kept k b then Some (default [] (m !! k) ++ [b])%list else m !! k.
Proof.
  intros Hm. unfold add_balloon, kept.
  destruct (invalid_balloon b); simpl; [by intros [= <-]|].
  pose proof (push_under_done m (js_String (balloon_number b)) b Hm) as H.
  destruct (push_under _ _ _) as [m1|]; [|done].
  intros [= <-]. destruct H as (_ & -> & Hn). split; [done|].
  case_bool_decide as Hk.
  - subst k. by rewrite lookup_insert_eq.
  - by rewrite lookup_insert_ne.
Qed.

Lemma for_each_add_lookup d m m' k :
  own_names m →
  for_each add_balloon m d = (Done tt, m') →
  m' !! k = pushed (m !! k) (filter (λ b, kept k b = true) (objects d)).
Proof.
  revert m. induction d as [|[b|] d IH]; intros m Hm; cbn [for_each].
  - intros [= <-]. destruct (m !! k); simpl; [by rewrite app_nil_r|done].
  - destruct (add_balloon m (Some b)) as [m1|] eqn:E; [|done].
    destruct (add_balloon_lookup m b m1 k Hm E) as [Hn Hl].
    intros H. rewrite (IH m1 Hn H), Hl.
    change (objects (Some b :: d)) with (b :: objects d). rewrite filter_cons.
    destruct (kept k b) eqn:Ek.
    + rewrite decide_True by done.
      destruct (m !! k) as [l0|]; simpl;
        destruct (filter _ _); simpl; by rewrite <- ?app_assoc.
    + by rewrite decide_False by done.
  - done.
Qed.

Lemma own_names_empty : own_names ∅.
Proof. intros k [l Hl]. by rewrite lookup_empty in Hl. Qed.

Lemma build_mapping_lookup d m k :
  build_mapping d = (Done tt, m) →
  m !! k = match filter (λ b, kept k b = true) (objects d) with
           | [] => None
           | l => Some l
           end.
Proof.
  intros H. unfold build_mapping in H.
  rewrite (for_each_add_lookup d ∅ m k own_names_empty H), lookup_empty.
  by destruct (filter _ _).
Qed.

(** The loader gets through exactly the arrays without a null element and
    without a valid balloon under an inherited name. *)
Lemma for_each_loads d m :
  own_names m → (for_each add_balloon m d).1 = Done tt ↔ loads d.
Proof.
  unfold loads. revert m. induction d as [|[b|] d IH]; intros m Hm; cbn [for_each].
  - split; [by constructor|done].
  - rewrite Forall_cons. unfold add_balloon at 1.
    destruct (invalid_balloon b) eqn:Ev.
    + rewrite (IH m Hm). split; [|naive_solver].
      intros H. split; [|done]. exists b. split; [done|]. congruence.
    + pose proof (push_under_done m (js_String (balloon_number b)) b Hm) as H.
      destruct (push_under _ _ _) as [m1|]; simpl.
      * destruct H as (Hk & -> & Hn). rewrite (IH _ Hn).
        split; [|naive_solver]. intros Hd. split; [|done].
        exists b. split; [done|]. intros _.
        destruct Hk as [Hk|Hk]; [done|]. by apply Hm.
      * destruct H as [Hi _]. split; [done|].
        intros [(b' & [= <-] & Hb) _]. specialize (Hb Ev). congruence.
  - split; [done|]. rewrite Forall_cons. intros [(b & [=] & _) _].
Qed.

Lemma build_mapping_loads d :
  loads d ↔ ∃ m, build_mapping d = (Done tt, m).
Proof.
  rewrite <- (for_each_loads d ∅ own_names_empty). unfold build_mapping.
  destruct (for_each add_balloon ∅ d) as [[[]|e] m]; simpl; split;
    try done; try (by eexists); by intros [? [=]].
Qed.

Lemma objects_elem (d : list (option Balloon)) (b : Balloon) :
  b ∈ objects d ↔ Some b ∈ d.
Proof.
  unfold objects. rewrite list_elem_of_omap. split.
  - intros (x & Hx & Heq). unfold id in Heq. by subst x.
  - intros H. by exists (Some b).
Qed.

(** The loader on results it gets through.  For a results array [d]
    without a null element and without a valid balloon labelled with a name
    objects inherit, the labels that are numbers being safe integers,
    loadBalloonMapping finishes without raising; the
    mapping it leaves holds a balloon exactly when the balloon is in [d]
    with balloon_number, page and bbox all truthy; and every key [k] of the
    mapping holds a non-empty list whose balloons all have
    [String(b.balloon_number) = k]. *)
Theorem loadBalloonMapping_groups_valid_balloons (d : list (option Balloon)) :
  loads d → safe_labels d →
  ∃ m, build_mapping d = (Done tt, m)
  ∧ (∀ b, (∃ k l, m !! k = Some l ∧ b ∈ l) ↔
          (Some b ∈ d ∧ truthy (balloon_number b) = true
           ∧ page_truthy (page b) = true ∧ is_Some (bbox b)))
  ∧ (∀ k l, m !! k = Some l →
            l ≠ [] ∧ ∀ b, b ∈ l → js_String (balloon_number b) = k)
  ∧ (∀ S (net : network S) c s code s',
       balloon_results net s = (Response true code (Some (Some d)), s') →
       loadBalloonMapping net (c, s)
       = (Done tt, (set_balloonMapping m (emit (Sent BalloonResults) c), s'))).
Proof.
  intros [m Hm]%build_mapping_loads _. exists m. split; [done|].
  split; [|split].
  - intros b. split.
    + intros (k & l & Hl & Hb). rewrite (build_mapping_lookup d m k Hm) in Hl.
      assert (b ∈ filter (λ b, kept k b = true) (objects d)) as Hin
        by (destruct (filter _ _); naive_solver).
      apply list_elem_of_filter in Hin as [Hk Hd%objects_elem].
      apply kept_spec in Hk. naive_solver.
    + intros (Hb%objects_elem & H1 & H2 & H3).
      assert (b ∈ filter (λ b', kept (js_String (balloon_number b)) b' = true)
                    (objects d))
        as Hin by (apply list_elem_of_filter; split; [by apply kept_spec|done]).
      exists (js_String (balloon_number b)).
      rewrite (build_mapping_lookup d m _ Hm).
      destruct (filter _ _) as [|x l] eqn:E; [by apply elem_of_nil in Hin|].
      by exists (x :: l).
  - intros k l Hl. rewrite (build_mapping_lookup d m k Hm) in Hl.
    assert (l = filter (λ b, kept k b = true) (objects d) ∧ l ≠ []) as [-> Hne]
      by (destruct (filter _ _); naive_solver).
    split; [done|]. intros b Hb.
    apply list_elem_of_filter in Hb as [Hk ?]. apply kept_spec in Hk. naive_solver.
  - intros S net c s code s' H.
    unfold loadBalloonMapping, group_into_mapping, try_catch, bind, fetch,
      json_if_ok, update, ret.
    simpl. rewrite H. simpl. by rewrite Hm.
Qed.

Lemma scenario_loads : loads scenario_results.
Proof. repeat constructor; eexists; (split; [reflexivity|]); by vm_compute. Qed.

Lemma scenario_safe : safe_labels scenario_results.
Proof. unfold safe_labels. repeat constructor; simpl; lia. Qed.

Example loadBalloonMapping_groups_the_scenario :
  (loads scenario_results ∧ safe_labels scenario_results)
  ∧ ∃ m, build_mapping scenario_results = (Done tt, m)
    ∧ (∀ b, (∃ k l, m !! k = Some l ∧ b ∈ l) ↔
            (Some b ∈ scenario_results ∧ truthy (balloon_number b) = true
             ∧ page_truthy (page b) = true ∧ is_Some (bbox b)))
    ∧ (∀ k l, m !! k = Some l →
              l ≠ [] ∧ ∀ b, b ∈ l → js_String (balloon_number b) = k)
    ∧ (∀ S (net : network S) c s code s',
         balloon_results net s
         = (Response true code (Some (Some scenario_results)), s') →
         loadBalloonMapping net (c, s)
         = (Done tt, (set_balloonMapping m (emit (Sent BalloonResults) c), s'))).
Proof.
  split; [split; [exact scenario_loads|exact scenario_safe]|].
  exact (loadBalloonMapping_groups_valid_balloons scenario_results scenario_loads
           scenario_safe).
Defined.

(** C8, on the code.  loadBalloonMapping keeps its groups in an object
    created as [{}].  A balloon with truthy number, page and bbox whose
    label is a name every object inherits, constructor for one, finds the
    inherited member where the loader expects its list: no list is
    created, [push] is not there, and the loader raises instead of grouping
    the balloon.  A [null] element raises as well, at the guard that is
    meant to skip what is malformed, and the valid balloons after it are
    never grouped. *)
Theorem loadBalloonMapping_raises_on_inherited_label :
  invalid_balloon balloon_constructor = false
  ∧ loadBalloonMapping (results_server [Some balloon_constructor]) (fresh_client, tt)
    = (Thrown "balloonMapping[k].push is not a function",
       (emit (Sent BalloonResults) fresh_client, tt))
  ∧ loadBalloonMapping
      (results_server [Some (balloon 12 1 (box 100)); None; Some (balloon 7 2 (box 200))])
      (fresh_client, tt)
    = (Thrown "Cannot read properties of null (reading 'balloon_number')",
       (set_balloonMapping {[ "12" := [balloon 12 1 (box 100)] ]}
          (emit (Sent BalloonResults) fresh_client), tt)).
Proof. split_and!; by vm_compute. Qed.

Lemma join_lookup d m n :
  build_mapping d = (Done tt, m) →
  m !! js_String n
  = match filter (λ b, matches n b = true) (objects d) with
    | [] => None
    | l => Some l
    end.
Proof. apply build_mapping_lookup. Qed.

(** The GA half of loadDetails runs unless the details request succeeded
    with an empty object. *)
Lemma loadDetails_runs_the_join {S} (net : network S) (n : jsval) (c : client)
    (s : S) :
  loadDetails net n (c, s)
  = match bom_details net (js_String n) s with
    | (Response true _ (Some []), s1) =>
        (Done tt, (emit (Sent (BomDetails (js_String n))) c, s1))
    | (_, s1) =>
        locate_balloon net n (emit (Sent (BomDetails (js_String n))) c, s1)
    end.
Proof.
  unfold loadDetails, try_catch, bind, fetch, json_if_ok, throw, ret. simpl.
  destruct (bom_details net (js_String n) s) as [[|[] ? [[|? ?]|]] s1]; reflexivity.
Qed.

(** C1, as the code has it.  The results [d] were loaded by
    loadBalloonMapping without raising, the drawing is loaded, and the text
    of the FIND NUMBER [n] is not a name objects inherit; the labels that
    are numbers are safe integers.  When the details request of loadDetails
    does not come back with an empty object, loadDetails finds [join d n]:
    exactly the balloons of [d] that pass the loader's guard and whose
    [String(balloon_number)] is [String(n)], in ascending page order, the
    balloons of one page in list order.  When there is none it shows the
    not-found alert and raises nothing; otherwise the sorted entries are
    what the mapping holds for [n], the viewer goes to the page of the
    first one, highlights it and names the pages of the others. *)
Theorem join_returns_valid_balloons_by_page {S} (net : network S)
    (d : list (option Balloon)) (m : gmap string (list Balloon)) (n : jsval)
    (c : client) (s : S) :
  build_mapping d = (Done tt, m) →
  inherited (js_String n) = false →
  safe_labels d → safe_number n →
  gaLoaded c = true → balloonMapping c = m →
  (∀ code, (bom_details net (js_String n) s).1 ≠ Response true code (Some [])) →
  let c1 := emit (Sent (BomDetails (js_String n))) c in
  let s1 := (bom_details net (js_String n) s).2 in
  (∀ b, matches n b = true ↔
        truthy (balloon_number b) = true ∧ page_truthy (page b) = true
        ∧ is_Some (bbox b) ∧ js_String (balloon_number b) = js_String n)
  ∧ join d n ≡ₚ filter (λ b, matches n b = true) (objects d)
  ∧ Sorted page_le (join d n)
  ∧ (∀ p, filter (λ b, page_num b = p) (join d n)
          = filter (λ b, page_num b = p)
              (filter (λ b, matches n b = true) (objects d)))
  ∧ match join d n with
    | [] =>
        loadDetails net n (c, s)
        = (Done tt, (emit (Alert (NotFoundInGA (js_String n))) c1, s1))
    | first :: others =>
        ∃ o c' s',
          loadDetails net n (c, s) = (o, (c', s'))
          ∧ balloonMapping c' !! js_String n = Some (first :: others)
          ∧ currentPage c' = page_num first
          ∧ (ga_image net (page_num first) s1 = (true, s') →
             o = Done tt
             ∧ log c' = (log c1 ++
                 [Sent (GaImage (page_num first)); Rendered (page_num first);
                  Highlighted first] ++
                 (if bool_decide (others = []) then []
                  else [AlsoAppearsOn (js_String n) (page_num <$> others)]))%list)
    end.
Proof.
  intros Hm Hn _ _ Hl Hc Hd. cbv zeta.
  split; [intros b; apply kept_spec|].
  split; [apply array_sort_perm|].
  split; [apply array_sort_sorted|].
  split; [intros p; apply array_sort_stable|].
  rewrite loadDetails_runs_the_join.
  destruct (bom_details net (js_String n) s) as [answer s1] eqn:Ed. simpl in *.
  assert (∀ X Y : outcome unit * (client * S),
            match answer with
            | Response true _ (Some []) => X
            | _ => Y
            end = Y) as ->.
  { intros X Y. destruct answer as [|[] code [[|? ?]|]]; try done.
    by destruct (Hd code). }
  unfold locate_balloon, bind, read, update, say, ret. simpl.
  rewrite Hl. simpl. rewrite !Hc.
  rewrite (get_property_own m _ Hn), (join_lookup d m n Hm). unfold join.
  destruct (filter (λ b, matches n b = true) (objects d)) as [|x l] eqn:E;
    simpl; [done|].
  change (sort_insert by_page x (array_sort by_page l))
    with (array_sort by_page (x :: l)).
  destruct (array_sort by_page (x :: l)) as [|first others] eqn:Es.
  { by apply array_sort_nil in Es. }
  unfold renderPage. simpl.
  destruct (ga_image net (page_num first) s1) as [[] s'] eqn:Ei; simpl.
  - destruct (bool_decide (others = [])) eqn:Eo; simpl;
      eexists _, _, _; (split; [reflexivity|]); simpl;
      rewrite lookup_insert_eq; (split; [done|]); (split; [done|]);
      intros _; (split; [done|]); by rewrite <- !app_assoc.
  - eexists _, _, _; (split; [reflexivity|]); simpl.
    rewrite lookup_insert_eq. (split; [done|]); (split; [done|]). intros [=].
Qed.

(** The scenario of the specification: balloon 12 is on pages 1 and 3. *)
Example join_of_the_scenario :
  (build_mapping scenario_results = (Done tt, (build_mapping scenario_results).2)
   ∧ inherited (js_String (JNum 12)) = false
   ∧ safe_labels scenario_results ∧ safe_number (JNum 12)
   ∧ gaLoaded (loaded scenario_results fresh_client) = true
   ∧ balloonMapping (loaded scenario_results fresh_client)
     = (build_mapping scenario_results).2
   ∧ ∀ code, (bom_details offline (js_String (JNum 12)) tt).1
             ≠ Response true code (Some []))
  ∧ join scenario_results (JNum 12)
    ≡ₚ filter (λ b, matches (JNum 12) b = true) (objects scenario_results).
Proof.
  assert (safe_labels scenario_results) as Hsafe.
  { unfold safe_labels. repeat constructor; simpl; lia. }
  assert (safe_number (JNum 12)) as Hn by (simpl; lia).
  split; [split_and!; try done; by vm_compute|].
  exact (proj1 (proj2 (join_returns_valid_balloons_by_page offline scenario_results
                         (build_mapping scenario_results).2 (JNum 12)
                         (loaded scenario_results fresh_client) tt
                         ltac:(by vm_compute) ltac:(by vm_compute) Hsafe Hn
                         eq_refl eq_refl ltac:(by intros code)))).
Defined.

(** C1 as worded fails on the code: a balloon numbered 0 does not pass the
    loader's guard, so the join of FIND NUMBER 0 is the not-found alert
    although a balloon with that number, on page 1, is in the results. *)
Lemma join_misses_balloon_zero :
  join_as_specified [Some balloon_zero] (JNum 0) = [balloon_zero]
  ∧ join [Some balloon_zero] (JNum 0) ≠ join_as_specified [Some balloon_zero] (JNum 0)
  ∧ build_mapping [Some balloon_zero] = (Done tt, ∅)
  ∧ loadDetails offline (JNum 0) (loaded [Some balloon_zero] fresh_client, tt)
    = (Done tt,
       (emit (Alert (NotFoundInGA "0"))
          (emit (Sent (BomDetails "0")) (loaded [Some balloon_zero] fresh_client)),
        tt)).
Proof. split_and!; by vm_compute. Qed.

(** The scenario of the specification in the cache + resume client:
    querying 12 gives the balloons of pages 1 and 3, in that order. *)
Example join_scenario :
  join scenario_results (JNum 12) = [balloon 12 1 (box 100); balloon 12 3 (box 300)]
  ∧ join scenario_results (JStr "7") = [balloon 7 2 (box 200)]
  ∧ join scenario_results (JNum 5) = [].
Proof. split_and!; by vm_compute. Qed.

(** A FIND NUMBER that is a name objects inherit is not looked up as the
    others are: for constructor, with no such balloon in the results,
    loadDetails raises instead of showing the not-found alert. *)
Example join_of_an_inherited_name :
  loadDetails offline (JStr "constructor") (loaded scenario_results fresh_client, tt)
  = (Thrown "entries.sort is not a function",
     (emit (Sent (BomDetails "constructor")) (loaded scenario_results fresh_client),
      tt)).
Proof. by vm_compute. Qed.

(** ** The oldest copy: one balloon for each number *)

Lemma assign_each_own (d : list (option Balloon)) (m m' : ScriptJs1.object_map) k :
  Forall (λ e, ∃ b, e = Some b ∧ js_String (balloon_number b) ≠ "__proto__") d →
  ScriptJs1.assign_each m d = (Done tt, m') →
  ScriptJs1.prototype m' = ScriptJs1.prototype m
  ∧ ScriptJs1.own m' !! k
    = match last (filter (λ b, js_String (balloon_number b) = k) (objects d)) with
      | Some b => Some b
      | None => ScriptJs1.own m !! k
      end.
Proof.
  revert m. induction d as [|e d IH]; intros m Hd; simpl.
  { by intros [= <-]. }
  apply Forall_cons in Hd as [(b & -> & Hb) Hd]. simpl.
  rewrite bool_decide_eq_false_2 by done. intros H.
  destruct (IH _ Hd H) as [Hp Ho]. split; [done|].
  rewrite Ho. unfold objects. simpl. rewrite filter_cons. case_decide as Hk.
  - rewrite last_cons. destruct (last (filter _ _)); [done|].
    subst k. by rewrite lookup_insert_eq.
  - destruct (last (filter _ _)); [done|]. simpl. by rewrite lookup_insert_ne.
Qed.

(** The oldest copy of the script keeps one balloon per number.  For results
    without a null element and without a balloon labelled [__proto__], the
    loader finishes, and the lookup of a FIND NUMBER whose text is not a
    name objects inherit gives the last balloon of the results with that
    number, and nothing when there is none.  The labels that are numbers
    are safe integers. *)
Theorem oldest_lookup_gives_last_balloon (d : list (option Balloon)) (n : jsval) :
  Forall (λ e, ∃ b, e = Some b ∧ js_String (balloon_number b) ≠ "__proto__") d →
  inherited (js_String n) = false →
  safe_labels d → safe_number n →
  ∃ m, ScriptJs1.build_mapping d = (Done tt, m)
       ∧ ScriptJs1.locate_balloon m n
         = match last (filter (λ b, js_String (balloon_number b) = js_String n)
                         (objects d)) with
           | Some b => ScriptJs1.Found b
           | None => ScriptJs1.Missing
           end.
Proof.
  intros Hd Hn _ _.
  assert (∀ m0, ∃ m, ScriptJs1.assign_each m0 d = (Done tt, m)) as Hdone.
  { clear Hn. induction d as [|e d IH]; intros m0; simpl; [by eexists|].
    apply Forall_cons in Hd as [(b & -> & Hb) Hd]. simpl.
    rewrite bool_decide_eq_false_2 by done. by apply IH. }
  destruct (Hdone {| ScriptJs1.own := ∅; ScriptJs1.prototype := None |}) as [m Hm].
  exists m. split; [done|].
  destruct (assign_each_own d _ m (js_String n) Hd Hm) as [Hp Ho]. simpl in *.
  unfold ScriptJs1.locate_balloon. rewrite Ho, Hp, Hn, lookup_empty. simpl.
  by destruct (last _).
Qed.

Example oldest_lookup_scenario :
  (Forall (λ e, ∃ b, e = Some b ∧ js_String (balloon_number b) ≠ "__proto__")
     scenario_results
   ∧ inherited (js_String (JNum 12)) = false
   ∧ safe_labels scenario_results ∧ safe_number (JNum 12))
  ∧ ∃ m, ScriptJs1.build_mapping scenario_results = (Done tt, m)
         ∧ ScriptJs1.locate_balloon m (JNum 12)
           = match last (filter (λ b, js_String (balloon_number b)
                                      = js_String (JNum 12))
                           (objects scenario_results)) with
             | Some b => ScriptJs1.Found b
             | None => ScriptJs1.Missing
             end.
Proof.
  assert (Forall (λ e, ∃ b, e = Some b ∧ js_String (balloon_number b) ≠ "__proto__")
            scenario_results) as Hd
    by (repeat constructor; eexists; (split; [reflexivity|]); by vm_compute).
  assert (safe_labels scenario_results) as Hsafe
    by (unfold safe_labels; repeat constructor; simpl; lia).
  assert (safe_number (JNum 12)) as Hn by (simpl; lia).
  split; [split_and!; try done; by vm_compute|].
  exact (oldest_lookup_gives_last_balloon scenario_results (JNum 12) Hd
           ltac:(by vm_compute) Hsafe Hn).
Defined.

(** ** Turning pages *)

Section Pages.
Context {S : Type} (net : network S).

Lemma turn_page_in_range n t w : in_range n w → in_range n (turn_page net t w).
Proof.
  destruct w as [c s]. intros (Hl & Hn & Hp). simpl in *.
  destruct t; unfold turn_page, nextPage, prevPage, bind, read, update,
    try_catch, renderPage, ret, in_range; simpl; rewrite Hl; simpl.
  - destruct (currentPage c >=? totalPages c) eqn:E; simpl; [done|].
    rewrite Z.geb_leb in E. apply Z.leb_gt in E.
    destruct (ga_image net _ s) as [[] ?]; simpl; split_and!; try done; lia.
  - destruct (currentPage c <=? 1) eqn:E; simpl; [done|].
    apply Z.leb_gt in E.
    destruct (ga_image net _ s) as [[] ?]; simpl; split_and!; try done; lia.
Qed.

Lemma turn_page_old_in_range n t w :
  in_range_old n w → in_range_old n (turn_page_old net t w).
Proof.
  destruct w as [c s]. intros (Hn & Hp). simpl in *.
  destruct t; unfold turn_page_old, ScriptJs1.nextPage, ScriptJs1.prevPage,
    bind, read, update, ScriptJs1.renderPage, ret, in_range_old; simpl.
  - destruct (currentPage c <? totalPages c) eqn:E; simpl; [|done].
    apply Z.ltb_lt in E.
    destruct (ga_image net _ s) as [[] ?]; simpl; split_and!; try done; lia.
  - destruct (currentPage c >? 1) eqn:E; simpl; [|done].
    apply Z.gtb_gt in E.
    destruct (ga_image net _ s) as [[] ?]; simpl; split_and!; try done; lia.
Qed.

Lemma turn_pages_in_range n ts w : in_range n w → in_range n (turn_pages net ts w).
Proof.
  revert w. induction ts as [|t ts IH]; intros w Hw; simpl; [done|].
  apply IH. by apply turn_page_in_range.
Qed.

Lemma turn_pages_old_in_range n ts w :
  in_range_old n w → in_range_old n (turn_pages_old net ts w).
Proof.
  revert w. induction ts as [|t ts IH]; intros w Hw; simpl; [done|].
  apply IH. by apply turn_page_old_in_range.
Qed.

Lemma nextPage_on_last_page c s :
  currentPage c = totalPages c → nextPage net (c, s) = (Done tt, (c, s)).
Proof.
  intros H. unfold nextPage, bind, read, ret. simpl. rewrite H.
  rewrite Z.geb_leb, (proj2 (Z.leb_le _ _)) by lia. by rewrite orb_true_r.
Qed.

Lemma prevPage_on_first_page c s :
  currentPage c = 1 → prevPage net (c, s) = (Done tt, (c, s)).
Proof.
  intros H. unfold prevPage, bind, read, ret. simpl. rewrite H.
  by rewrite orb_true_r.
Qed.

Lemma old_nextPage_on_last_page c s :
  currentPage c = totalPages c → ScriptJs1.nextPage net (c, s) = (Done tt, (c, s)).
Proof.
  intros H. unfold ScriptJs1.nextPage, bind, read, ret. simpl. rewrite H.
  by rewrite Z.ltb_irrefl.
Qed.

Lemma old_prevPage_on_first_page c s :
  currentPage c = 1 → ScriptJs1.prevPage net (c, s) = (Done tt, (c, s)).
Proof.
  intros H. unfold ScriptJs1.prevPage, bind, read, ret. simpl. by rewrite H.
Qed.
End Pages.

(** C9.  After a drawing with [totalPages = n ≥ 1] is loaded ([currentPage]
    is 1), every sequence of nextPage and prevPage keeps
    [1 ≤ currentPage ≤ n], in the cache + resume client and in the oldest
    copy of the script; nextPage on the last page and prevPage on page 1
    change nothing at all. *)
Theorem page_turns_stay_in_range {S} (net : network S) (n : Z) (c0 : client)
    (s : S) (ts : list turn) :
  1 ≤ n → pages_stay_in_range net n c0 s ts.
Proof.
  intros Hn. unfold pages_stay_in_range. split; [|split; [|split]].
  - apply (turn_pages_in_range net n ts (ga_loaded n c0, s)).
    unfold in_range. simpl. lia.
  - apply (turn_pages_old_in_range net n ts (ga_loaded n c0, s)).
    unfold in_range_old. simpl. lia.
  - intros c s' H. split;
      [by apply nextPage_on_last_page | by apply old_nextPage_on_last_page].
  - intros c s' H. split;
      [by apply prevPage_on_first_page | by apply old_prevPage_on_first_page].
Qed.

(** A three-page drawing, turned past both ends. *)
Lemma page_turns_three_pages :
  1 ≤ 3
  ∧ pages_stay_in_range (canned (λ _, NetworkError) NetworkError NetworkError
                           NetworkError NetworkError true)
      3 fresh_client tt [Prev; Next; Next; Next; Next; Prev].
Proof.
  split; [lia|]. apply page_turns_stay_in_range. lia.
Defined.

Example page_turns_three_pages_end :
  currentPage (turn_pages offline [Prev; Next; Next; Next; Next; Prev]
                 (ga_loaded 3 fresh_client, tt)).1 = 2.
Proof. reflexivity. Qed.

(** ** Leaving the page *)

Lemma old_listeners_idle {S} (net : network S) (c : client) (s : S) hidden :
  stored_job c = None →
  ScriptJs2.beforeunload (c, s) = (Done tt, (c, s))
  ∧ ScriptJs2.pagehide (c, s) = (Done tt, (c, s))
  ∧ ScriptJs2.visibilitychange net hidden (c, s) = (Done tt, (c, s)).
Proof.
  intros E.
  unfold ScriptJs2.beforeunload, ScriptJs2.pagehide, ScriptJs2.visibilitychange,
    bind, read, ret; simpl.
  rewrite E. destruct hidden; simpl; rewrite ?E; auto.
Qed.

Lemma old_beforeunload_stored {S} (c : client) (s : S) id :
  stored_job c = Some id →
  ScriptJs2.beforeunload (c, s)
  = (Done tt, (set_ga_job_id None (emit (Beacon (JobCancel id) None) c), s)).
Proof.
  intros E. unfold ScriptJs2.beforeunload, bind, read, say, update, ret; simpl.
  by rewrite E.
Qed.

(** C5.  When the page unloads while a job id is stored, the client sends
    exactly one beacon to /job/cancel/{job_id}, waits for no answer, and
    removes the stored id; when none is stored it sends no cancellation
    signal.  This holds for the "beforeunload" listener of the cache +
    resume client and for the three listeners of the second copy of
    script.js fired in the order of an unload. *)
Theorem unload_sends_one_cancel_beacon {S} (net : network S) (SESSION_ID : string)
    (c : client) (s : S) :
  match stored_job c with
  | Some id =>
      (∃ c', beforeunload SESSION_ID (c, s) = (Done tt, (c', s))
             ∧ log c' = (log c ++ Beacon (JobCancel id) (Some SESSION_ID)
                           :: (if hasUnsavedChanges c then [UnloadPrompt] else []))%list
             ∧ cancel_signals (drop (length (log c)) (log c')) = [id]
             ∧ ga_job_id c' = None)
      ∧ ScriptJs2.unload net (c, s)
        = (Done tt, (set_ga_job_id None (emit (Beacon (JobCancel id) None) c), s))
  | None =>
      beforeunload SESSION_ID (c, s)
      = (Done tt, (if hasUnsavedChanges c then emit UnloadPrompt c else c, s))
      ∧ ScriptJs2.unload net (c, s) = (Done tt, (c, s))
  end.
Proof.
  destruct (stored_job c) as [id|] eqn:E.
  - split.
    + unfold beforeunload, bind, read, say, update, ret. simpl. rewrite E. simpl.
      destruct (hasUnsavedChanges c) eqn:Eu; simpl; eexists; (split; [reflexivity|]);
        simpl; rewrite <- ?app_assoc; simpl; (split; [reflexivity|]);
        rewrite drop_app_length; split; reflexivity.
    + unfold ScriptJs2.unload, bind.
      rewrite (old_beforeunload_stored c s id E).
      destruct (old_listeners_idle net
                  (set_ga_job_id None (emit (Beacon (JobCancel id) None) c)) s true)
        as (_ & -> & ->); reflexivity.
  - split.
    + unfold beforeunload, bind, read, say, update, ret. simpl. rewrite E. simpl.
      by destruct (hasUnsavedChanges c).
    + unfold ScriptJs2.unload, bind.
      destruct (old_listeners_idle net c s true E) as (-> & -> & ->); reflexivity.
Qed.

Example unload_with_job :
  beforeunload "session-1" (set_ga_job_id (Some "job-7") fresh_client, tt)
  = (Done tt,
     (set_ga_job_id None
        (emit (Beacon (JobCancel "job-7") (Some "session-1"))
           (set_ga_job_id (Some "job-7") fresh_client)), tt)).
Proof. reflexivity. Qed.

(** ** A forced fresh run *)

(** C6.  startFreshGAProcessing first asks the server to clear the checkpoint
    of the content hash and only then uploads with force: whatever the
    network answers, the requests it sends are the clear request followed by
    the force upload, and it raises nothing.  No answer to the clear request
    (nor its failure) stops the run; when the force upload is accepted its
    job id is stored and polled. *)
Theorem fresh_run_clears_before_upload {S} (net : network S) (file : File)
    (fileHash : jsval) (c : client) (s : S) :
  ∃ c' s' tail,
    startFreshGAProcessing net file fileHash (c, s) = (Done tt, (c', s'))
    ∧ log c' = (log c ++ [Sent (ClearProgress (js_String fileHash));
                          Sent (UploadGA file true)] ++ tail)%list
    ∧ requests tail = []
    ∧ s' = (upload_ga net file true
              (clear_ga_progress net (js_String fileHash) s).2).2
    ∧ ∀ code data,
        (upload_ga net file true
           (clear_ga_progress net (js_String fileHash) s).2).1
        = Response true code (Some data) →
        tail = []
        ∧ ga_job_id c' = Some (js_String (u_job_id data))
        ∧ gaPollTimer c' = Some (js_String (u_job_id data)).
Proof.
  unfold startFreshGAProcessing, pollJob, stopPolling, resetGAViewer,
    showProgressModal, hideProgressModal, try_catch, bind, fetch, json_if_ok,
    throw, say, update, ret.
  simpl.
  destruct (clear_ga_progress net (js_String fileHash) s) as [r1 s1]; simpl.
  destruct r1 as [|ok1 code1 d1]; simpl;
    destruct (upload_ga net file true s1) as [[|[] code2 [d2|]] s2]; simpl;
    eexists _, _, _; (split; [reflexivity|]); simpl;
    rewrite <- ?app_assoc; simpl;
    (split; [reflexivity|]); (split; [reflexivity|]); (split; [reflexivity|]);
    intros code data [=]; subst; done.
Qed.

(** ** The content hash in the client *)

Lemma string_length_app (s t : string) :
  String.length (s +:+ t) = (String.length s + String.length t)%nat.
Proof. induction s as [|c s IH]; simpl; [done|]. by rewrite IH. Qed.

Lemma padded_byte_length (b : Byte.byte) :
  String.length (padStart 2 "0" (toString16 b)) = 2%nat.
Proof. unfold padStart, toString16. by destruct (Byte.to_N b <? 16)%N. Qed.

(** The hexadecimal text of a digest has two characters per byte, whatever
    the bytes are. *)
Lemma hex_of_bytes_length (hashArray : list Byte.byte) :
  String.length (hex_of_bytes hashArray) = (2 * length hashArray)%nat.
Proof.
  unfold hex_of_bytes. induction hashArray as [|b l IH]; [done|].
  rewrite fmap_cons. destruct l as [|b' l].
  - simpl. apply padded_byte_length.
  - change (String.length
              (padStart 2 "0" (toString16 b) +:+ "" +:+
               String.concat "" ((λ b, padStart 2 "0" (toString16 b)) <$> b' :: l))
            = (2 * length (b :: b' :: l))%nat).
    rewrite !string_length_app, IH, padded_byte_length. simpl. lia.
Qed.

Example hex_of_bytes_sample :
  hex_of_bytes [Byte.x00; Byte.x0f; Byte.xa0; Byte.xff] = "000fa0ff".
Proof. reflexivity. Qed.

(** C7, on the code.  forceReprocessGA asks SubtleCrypto for an "MD5"
    digest; MD5 is not one of its digest algorithms, so for every file the
    call is refused before any hash text is built: the handler ends with
    NotSupportedError and has sent nothing. *)
Theorem forceReprocessGA_has_no_digest {S} (net : network S)
    (sha : digest_alg → list Byte.byte → list Byte.byte) (file : File)
    (c : client) (s : S) :
  normalize_algorithm "MD5" = None
  ∧ forceReprocessGA net sha (Some file) true (c, s)
    = (Thrown "NotSupportedError", (c, s)).
Proof. split; reflexivity. Qed.

(** ** Upload and decide *)

Lemma resumeGAProcessing_done {S} (net : network S) file fileHash (w : client * S) :
  ∃ w', resumeGAProcessing net file fileHash w = (Done tt, w').
Proof.
  destruct w as [c s].
  unfold resumeGAProcessing, pollJob, stopPolling, resetGAViewer, showProgressModal,
    hideProgressModal, try_catch, bind, fetch, json_if_ok, throw, say, update, ret.
  simpl. destruct (resume_ga net file s) as [[|[] ? [d|]] s1]; simpl; eauto.
Qed.

Lemma startFreshGAProcessing_done {S} (net : network S) file fileHash (w : client * S) :
  ∃ w', startFreshGAProcessing net file fileHash w = (Done tt, w').
Proof.
  destruct w as [c s].
  unfold startFreshGAProcessing, pollJob, stopPolling, resetGAViewer,
    showProgressModal, hideProgressModal, try_catch, bind, fetch, json_if_ok,
    throw, say, update, ret.
  simpl. destruct (clear_ga_progress net (js_String fileHash) s) as [[|? ? ?] s1];
    simpl; destruct (upload_ga net file true s1) as [[|[] ? [d|]] s2];
    simpl; eauto.
Qed.

(** Every way the two result requests and the page image can end. *)
Ltac case_loads net s1 :=
  destruct (balloon_results net s1) as [[|[] ? [[?|]|]] ?]; simpl;
  try match goal with
      | |- context [build_mapping ?l] =>
          destruct (build_mapping l) as [[[]|?] ?]; simpl
      end;
  try match goal with
      | |- context [ga_pages net ?s] =>
          destruct (ga_pages net s) as [[|[] ? [?|]] ?]; simpl
      end;
  try match goal with
      | |- context [ga_image net ?p ?s] =>
          destruct (ga_image net p s) as [[] ?]; simpl
      end.

Ltac trace_is_quiet :=
  simpl; split; [reflexivity|]; split; [reflexivity|];
  eexists; split; [rewrite <- ?app_assoc; simpl; reflexivity|];
  simpl; repeat constructor.

(** On the answer "cached" uploadGA stores no job id, starts no polling and
    sends no request that creates or polls a job, however the two result
    requests end. *)
Lemma cached_answer_makes_no_job {S} (net : network S) (file : File)
    (pressed : option resume_choice) (c : client) (s : S) (code : Z)
    (data : upload_data) (s1 : S) :
  upload_ga net file false s = (Response true code (Some data), s1) →
  strict_eq (u_status data) (JStr "cached") = true →
  no_job_between c (uploadGA net (Some file) pressed (c, s)).2.1.
Proof.
  intros H E1.
  unfold uploadGA, try_catch, bind, fetch, json_if_ok_text, ret. simpl.
  rewrite !H. simpl. rewrite E1.
  unfold loadBalloonMapping, group_into_mapping, loadGA, renderPage,
    hideProgressModal, try_catch, bind, fetch, json_if_ok, throw, say, read,
    update, ret; simpl.
  case_loads net s1; unfold no_job_between; trace_is_quiet.
Qed.

(** C2, as the code has it.  An upload without the force flag that is
    answered with an ok status and a JSON body makes uploadGA act on the one
    outcome the answer names and on no other.  On "cached" it loads the
    finalized results (the balloon mapping, then the pages) and neither
    stores a job id, nor starts polling, nor sends a request that creates or
    polls a job.  On "resumable" it shows the checkpoint summary and does
    nothing more until the user chooses: no choice leaves the client as it
    is, "resume" and "fresh" run resumeGAProcessing and
    startFreshGAProcessing.  Otherwise, on an answer with a job id, the id
    is stored and polling of that job begins; an answer that names none of
    the three is ignored.  An upload that is refused or fails is a fourth
    outcome: the error is shown and nothing else happens. *)
Theorem uploadGA_acts_on_the_outcome {S} (net : network S) (file : File)
    (pressed : option resume_choice) (c : client) (s : S) :
  match upload_ga net file false s with
  | (Response true _ (Some data), s1) => upload_outcome net file pressed c s data s1
  | (answer, s1) => refusal_outcome net file pressed c s answer s1
  end.
Proof.
  destruct (upload_ga net file false s) as [[|[] code [data|]] s1] eqn:H;
    try (unfold refusal_outcome, uploadGA, try_catch, bind, fetch, json_if_ok_text,
           hideProgressModal, say, update, throw, ret; simpl; rewrite !H;
         eexists; split; [reflexivity|]; by intros ? ? [= <- <-]).
  unfold upload_outcome. cbv zeta.
  destruct (strict_eq (u_status data) (JStr "cached")) eqn:E1.
  { split; [by apply (cached_answer_makes_no_job net file pressed c s code data s1)|].
    intros code1 d m s2 code2 n s3 s4 Hb Hm _ Hp Hi.
    unfold uploadGA, try_catch, bind, fetch, json_if_ok_text, ret. simpl.
    rewrite !H. simpl. rewrite E1.
    unfold loadBalloonMapping, group_into_mapping, loadGA, renderPage,
      hideProgressModal, try_catch, bind, fetch, json_if_ok, throw, say, read,
      update, ret; simpl.
    rewrite Hb; simpl. rewrite !Hm; simpl. rewrite Hp; simpl. rewrite Hi; simpl.
    reflexivity. }
  unfold uploadGA, try_catch, bind, fetch, json_if_ok_text, ret. simpl.
  rewrite !H. simpl. rewrite E1.
  destruct (strict_eq (u_status data) (JStr "resumable")) eqn:E2.
  { unfold showResumeDialog, say, update, hideProgressModal, throw.
    destruct (u_progress_data data) as [p|]; simpl;
      [|destruct pressed; by eexists].
    destruct pressed as [[]|]; simpl; [| |done].
    - destruct (resumeGAProcessing_done net file (u_file_hash data)
                  (emit (ResumeDialog p) (emit (Sent (UploadGA file false)) c), s1))
        as [w' ->]. done.
    - destruct (startFreshGAProcessing_done net file (u_file_hash data)
                  (emit (ResumeDialog p) (emit (Sent (UploadGA file false)) c), s1))
        as [w' ->]. done. }
  destruct (truthy (u_job_id data)) eqn:E3; [intros _|]; reflexivity.
Qed.

(** A cached answer: the results are loaded, no job id is stored and
    nothing is polled. *)
Lemma uploadGA_cached_example :
  upload_outcome
    (canned (λ _, Response true 200 (Some cached_answer)) NetworkError
       NetworkError (Response true 200 (Some (Some scenario)))
       (Response true 200 (Some 3)) true)
    drawing None fresh_client tt cached_answer tt.
Proof.
  exact (uploadGA_acts_on_the_outcome
           (canned (λ _, Response true 200 (Some cached_answer)) NetworkError
              NetworkError (Response true 200 (Some (Some scenario)))
              (Response true 200 (Some 3)) true)
           drawing None fresh_client tt).
Defined.

(** C2 as worded fails on the code: an upload need not end in one of the
    three outcomes.  An upload that the server refuses, here with a
    conflict, makes the client show the error; it neither announces cached
    results, nor shows the resume dialog, nor stores or polls a job. *)
Lemma refused_upload_is_none_of_the_three :
  upload_ga conflict_server drawing false tt = (Response false 409 None, tt)
  ∧ uploadGA conflict_server (Some drawing) None (fresh_client, tt)
    = (Done tt,
       (emit (Alert (ErrorUploadingGA "HTTP 409: Conflict"))
          (set_progressModal false
             (emit (Sent (UploadGA drawing false)) fresh_client)), tt))
  ∧ ¬ acted_on_one_of_three fresh_client
        (uploadGA conflict_server (Some drawing) None (fresh_client, tt)).2.1.
Proof.
  split; [reflexivity|]. split; [by vm_compute|].
  intros [(dt & pg & H)|[(p & H)|(id & H & _)]].
  - apply list_elem_of_lookup in H as [i H]. vm_compute in H.
    destruct i as [|[|[|i]]]; discriminate H.
  - apply list_elem_of_lookup in H as [i H]. vm_compute in H.
    destruct i as [|[|[|i]]]; discriminate H.
  - vm_compute in H. discriminate H.
Qed.

(** The engine of the specification does refuse uploads: a drawing that a
    running job is working on is answered with a conflict. *)
Example engine_refuses_a_drawing_in_work :
  (Server.handle_upload toy_hash toy_pages "session-2" drawing false
     (run_steps 0 1
        (Server.upload_decide toy_hash toy_pages (file_bytes drawing) "session-1"
           false Server.startup).2)).1
  = Response false 409 None.
Proof. by vm_compute. Qed.

(** ** Polling a job *)

Lemma terminal_states (st : Server.job_state) :
  Server.terminal st = true
  ↔ st = Server.complete ∨ st = Server.cancelled ∨ st = Server.error.
Proof. destruct st; simpl; naive_solver. Qed.

Section ServerFacts.
Variable computeHash : list Byte.byte → string.
Variable pages_of : list Byte.byte → option nat.
Variable detect : string → nat → option (list Balloon).

Lemma enqueue_keeps_jobs j s id j0 :
  Server.jobs s !! id = Some j0 →
  Server.jobs (Server.enqueue j s).2 !! id = Some j0.
Proof.
  intros H. unfold Server.enqueue. simpl.
  rewrite lookup_insert_ne; [done|].
  intros Heq. pose proof (is_fresh (dom (Server.jobs s))) as Hf.
  rewrite Heq in Hf. apply Hf, elem_of_dom. eauto.
Qed.

Lemma start_keeps_jobs h sess n s id j0 :
  Server.jobs s !! id = Some j0 →
  Server.jobs (Server.start h sess n s).2 !! id = Some j0.
Proof.
  intros H. unfold Server.start. destruct (Server.owned h s); [done|].
  by apply enqueue_keeps_jobs.
Qed.

Lemma start_run_keeps_jobs bytes sess force s id j0 :
  Server.jobs s !! id = Some j0 →
  Server.jobs (Server.start_run computeHash pages_of bytes sess force s).2 !! id
  = Some j0.
Proof.
  intros H. unfold Server.start_run. destruct (pages_of bytes) as [n|]; [|done].
  pose proof (start_keeps_jobs (computeHash bytes) sess n
                (if force then Server.clear (computeHash bytes) s else s) id j0) as Hs.
  destruct (Server.start _ _ _ _) as [[e|jid] s']; simpl in *;
    apply Hs; by destruct force.
Qed.

(** Modelled from the spec, section 4.4: no operation of the engine changes
    a job that is in a terminal state. *)
Lemma terminal_job_is_final (o : Server.op) (s : Server.store) id j :
  Server.jobs s !! id = Some j →
  Server.terminal (Server.state j) = true →
  Server.jobs (Server.apply computeHash pages_of detect o s) !! id = Some j.
Proof.
  intros Hj Ht. destruct o as [bytes sess force|bytes sess|h|id'|id']; simpl.
  - unfold Server.upload_decide.
    destruct (Server.lookup _ s); [destruct force; [|done]|].
    + by apply start_run_keeps_jobs.
    + destruct (Server.read_checkpoint _ s); [destruct force; [|done]|];
        by apply start_run_keeps_jobs.
  - unfold Server.resume.
    destruct (Server.read_checkpoint _ s); [|done].
    destruct (Server.owned _ s); [done|]. by apply enqueue_keeps_jobs.
  - done.
  - unfold Server.cancel. destruct (decide (id' = id)) as [->|Hne].
    + by rewrite Hj, Ht.
    + destruct (Server.jobs s !! id') as [j'|]; [|done].
      destruct (Server.terminal (Server.state j')); [done|].
      simpl. by rewrite lookup_insert_ne.
  - unfold Server.run_step. destruct (decide (id' = id)) as [->|Hne].
    + rewrite Hj. by destruct (Server.state j).
    + destruct (Server.jobs s !! id') as [j'|]; [|done].
      destruct (Server.state j'); try done.
      * destruct (Server.owned _ s); [done|]. simpl. by rewrite lookup_insert_ne.
      * destruct (_ <? _)%nat.
        -- destruct (Server.cancel_requested j'); simpl;
             [by rewrite lookup_insert_ne|].
           destruct (detect _ _); simpl; by rewrite lookup_insert_ne.
        -- simpl. by rewrite lookup_insert_ne.
Qed.
End ServerFacts.

(** The poller stops on exactly the names of the terminal states. *)
Lemma poller_stops_on_terminal_states (st : Server.job_state) :
  status_is (status_answer (state_name st)) "complete"
  || status_is (status_answer (state_name st)) "cancelled"
  || status_is (status_answer (state_name st)) "error"
  = Server.terminal st.
Proof. by destruct st. Qed.

(** The poller of the cache + resume client acts at once on a poll that
    reports complete, cancelled or error: the interval is cleared, the
    stored job id is removed, and the results are loaded (complete), the
    progress dialog is closed (cancelled), or the error is shown (error).  A
    poll that reports any other status leaves the poller running. *)
Theorem poll_tick_observes {S} (net : network S) (id : string) (c : client)
    (s : S) (code : Z) (data : status_data) (s1 : S) :
  gaPollTimer c = Some id →
  isProcessingCompletion c = false →
  job_status net id s = (Response true code (Some data), s1) →
  poll_outcome net id c s data s1.
Proof.
  intros Ht Hb H. unfold poll_outcome. cbv zeta.
  unfold poll_tick, try_catch, bind, read, fetch, json_if_ok, updateProgress,
    say, update, ret. simpl.
  rewrite !Ht. simpl. rewrite !Hb. simpl. rewrite !H. simpl.
  unfold status_is, strict_eq.
  destruct data as [st pr msg]. simpl.
  case_bool_decide as E1.
  { subst st. rewrite !bool_decide_eq_false_2 by done.
    unfold loadBalloonMapping, group_into_mapping, loadGA, renderPage,
      hideProgressModal, stopPolling, try_finally, try_catch, bind, fetch,
      json_if_ok, throw, say, read, update, ret; simpl.
    split_and!.
    - case_loads net s1; reflexivity.
    - case_loads net s1; reflexivity.
    - case_loads net s1; reflexivity.
    - case_loads net s1; eexists; rewrite <- ?app_assoc; simpl; reflexivity.
    - intros code1 d m s2 code2 n s3 s4 Hbr Hm _ Hp Hi.
      rewrite Hbr; simpl. rewrite !Hm; simpl. rewrite Hp; simpl. rewrite Hi; simpl.
      reflexivity. }
  case_bool_decide as E2.
  { subst st. rewrite !bool_decide_eq_false_2 by done. reflexivity. }
  case_bool_decide as E3; [intros _|]; reflexivity.
Qed.

(** Modelled from the spec, section 4.4: the terminal job states are
    complete, cancelled and error, no operation of the engine changes a job
    that is in one of them, and their names are the three the poller of the
    cache + resume client stops on. *)
Lemma engine_terminal_states_are_final
    (computeHash : list Byte.byte → string)
    (pages_of : list Byte.byte → option nat)
    (detect : string → nat → option (list Balloon)) :
  terminal_states_are_final computeHash pages_of detect.
Proof.
  split; [apply terminal_states|].
  split; [|apply poller_stops_on_terminal_states].
  intros o srv jid j. apply terminal_job_is_final.
Qed.

(** A poll that reports error while job-7 is polled. *)
Example poll_tick_observes_sample :
  (gaPollTimer polling_job7 = Some "job-7"
   ∧ isProcessingCompletion polling_job7 = false
   ∧ job_status error_server "job-7" tt
     = (Response true 200 (Some (status_answer "error")), tt))
  ∧ poll_outcome error_server "job-7" polling_job7 tt (status_answer "error") tt.
Proof.
  split; [split_and!; reflexivity|].
  apply (poll_tick_observes error_server "job-7" polling_job7 tt 200);
    reflexivity.
Defined.

(** The poller of the second script of part_000 stops on exactly complete,
    cancelled and failed.  A poll that reports one of them ends the
    interval, removes the stored job id and closes the progress dialog, also
    when the results cannot be loaded afterwards, and for cancelled and
    failed the status is shown.  A poll that reports any other status, error
    among them, records the progress and nothing more: the interval keeps
    running and the job id stays stored. *)
Theorem older_poller_stops_on_three_statuses {S} (net : network S)
    (id : string) (c : client) (s : S) (ok : bool) (code : Z)
    (data : status_data) (s1 : S) :
  gaPollTimer c = Some id →
  job_status net id s = (Response ok code (Some data), s1) →
  let r := Part000b.poll_tick net (c, s) in
  let c1 := emit (Progress data) (emit (Sent (JobStatus id)) c) in
  r.1 = Done tt
  ∧ if status_is data "complete" then
      gaPollTimer r.2.1 = None ∧ ga_job_id r.2.1 = None
      ∧ progressModal r.2.1 = false
    else if status_is data "cancelled" || status_is data "failed" then
      r.2 = (emit (Alert (ProcessingStopped (js_String (s_status data))))
               (set_progressModal false
                  (set_ga_job_id None (set_gaPollTimer None c1))), s1)
    else r.2 = (c1, s1).
Proof.
  intros Ht H. cbv zeta.
  unfold Part000b.poll_tick, try_catch, bind, read, fetch, json_any,
    updateProgress, hideProgressModal, say, update, throw, ret. simpl.
  rewrite !Ht. simpl. rewrite !H. simpl.
  unfold status_is, strict_eq. destruct data as [st pr msg]. simpl.
  case_bool_decide as E1.
  { subst st. rewrite !bool_decide_eq_false_2 by done. simpl.
    unfold Part000b.loadBalloonMapping, Part000b.loadGA, group_into_mapping,
      ScriptJs1.renderPage, bind, fetch, json_any, throw, update, ret. simpl.
    destruct (balloon_results net s1) as [[|? ? [[l|]|]] s2]; simpl; try done.
    destruct (for_each Part000b.group ∅ l) as [[[]|?] ?]; simpl; try done.
    destruct (ga_pages net s2) as [[|? ? [n|]] s3]; simpl; try done.
    by destruct (ga_image net 1 s3) as [[] s4]. }
  case_bool_decide as E2; simpl.
  { subst st. done. }
  case_bool_decide as E3; simpl; [subst st|]; done.
Qed.

Example older_poller_keeps_polling_on_error :
  (gaPollTimer polling_job7 = Some "job-7"
   ∧ job_status error_server "job-7" tt
     = (Response true 200 (Some (status_answer "error")), tt))
  ∧ (Part000b.poll_tick error_server (polling_job7, tt)).2
    = (emit (Progress (status_answer "error"))
         (emit (Sent (JobStatus "job-7")) polling_job7), tt).
Proof.
  split; [split; reflexivity|].
  exact (proj2 (older_poller_stops_on_three_statuses error_server "job-7"
                  polling_job7 tt true 200 (status_answer "error") tt
                  eq_refl eq_refl)).
Defined.

(** C4, on the code.  The status endpoint reports that job-7 ended in error.
    The poller of the second script of part_000 tests the status against
    complete, cancelled and failed, so it records the progress and nothing
    more: its interval keeps running, the job id stays stored, the progress
    dialog stays open and no message is shown.  The poller of the cache
    + resume client, at the same poll, clears the interval, removes the job
    id and shows the error. *)
Theorem older_poller_misses_error :
  let older := (Part000b.poll_tick error_server (polling_job7, tt)).2.1 in
  let newer := (poll_tick error_server (polling_job7, tt)).2.1 in
  (gaPollTimer older = Some "job-7"
   ∧ ga_job_id older = Some "job-7"
   ∧ progressModal older = true
   ∧ log older = [Sent (JobStatus "job-7"); Progress (status_answer "error")])
  ∧ (gaPollTimer newer = None
     ∧ ga_job_id newer = None
     ∧ progressModal newer = false
     ∧ log newer = [Sent (JobStatus "job-7"); Progress (status_answer "error");
                    Alert (ProcessingError "Unknown error")]).
Proof. cbv zeta. split; split_and!; reflexivity. Qed.

(** ** The cache *)

Section CacheFacts.
Variable computeHash : list Byte.byte → string.
Variable pages_of : list Byte.byte → option nat.
Variable detect : string → nat → option (list Balloon).

(** Modelled from the spec, sections 4.2 and 4.6: an upload of cached
    content answers "cached" with the entry's summary and changes nothing. *)
Lemma cached_upload bytes sess s e :
  Server.lookup (computeHash bytes) s = Some e →
  Server.upload_decide computeHash pages_of bytes sess false s
  = (Server.Cached (Server.page_count e) (length (Server.detections e)), s).
Proof. intros H. unfold Server.upload_decide. by rewrite H. Qed.

Lemma cached_reuploads sess f k s e :
  Server.lookup (computeHash (file_bytes f)) s = Some e →
  reuploads computeHash pages_of sess f k s = (replicate k (cached_reply e), s).
Proof.
  intros H. induction k as [|k IH]; simpl; [done|].
  unfold Server.handle_upload. rewrite (cached_upload _ sess s e H). simpl.
  by rewrite IH.
Qed.

(** Modelled from the spec, section 4.4 step 4: when the loop of a running
    job is over, the next turn writes the cache entry and the job is
    complete. *)
Lemma completed_run_is_cached id s j :
  Server.jobs s !! id = Some j →
  Server.state j = Server.running →
  (Server.job_total_pages j ≤ Server.job_processed_pages j)%nat →
  ∃ e, Server.lookup (Server.hash j) (Server.run_step detect id s) = Some e
       ∧ Server.page_count e = Server.job_total_pages j
       ∧ Server.state <$> Server.jobs (Server.run_step detect id s) !! id
         = Some Server.complete.
Proof.
  intros Hj Hs Hn. unfold Server.run_step. rewrite Hj, Hs.
  rewrite (proj2 (Nat.ltb_ge _ _)) by done.
  eexists. unfold Server.lookup. simpl.
  rewrite !lookup_insert_eq. done.
Qed.
End CacheFacts.

(** C3.  Once the cache holds an entry for the hash of a file, every upload
    of the same bytes without the force flag answers "cached" with the same
    summary (the entry's page count and number of detections) and leaves
    the stores, and with them the jobs, as they were, however often it is
    repeated; and on that answer the client stores no job id, starts no
    polling and sends no request that creates or polls a job. *)
Theorem cached_reupload_is_idempotent (computeHash : list Byte.byte → string)
    (pages_of : list Byte.byte → option nat) (sess : string) (f : File)
    (e : Server.CacheEntry) (s : Server.store) :
  Server.lookup (computeHash (file_bytes f)) s = Some e →
  cache_is_idempotent computeHash pages_of sess f e s.
Proof.
  intros H. split.
  - intros k. by apply cached_reuploads.
  - intros S net pressed c s0 s1 Hup.
    by apply (cached_answer_makes_no_job net f pressed c s0 200 _ s1 Hup).
Qed.

(** The scenario: after the three-page drawing was processed, a second and
    a third upload of the same bytes are both answered from the cache. *)
Lemma cached_reupload_scenario :
  Server.lookup (toy_hash (file_bytes drawing)) store_after_run
  = Some {| Server.page_count := 3; Server.detections := scenario |}
  ∧ cache_is_idempotent toy_hash toy_pages "session-2" drawing
      {| Server.page_count := 3; Server.detections := scenario |}
      store_after_run.
Proof.
  split; [by vm_compute|].
  apply cached_reupload_is_idempotent. by vm_compute.
Defined.

Example scenario_reuploads :
  (reuploads toy_hash toy_pages "session-2" drawing 2 store_after_run).1
  = [Response true 200 (Some cached_answer);
     Response true 200 (Some cached_answer)]
  ∧ Server.state <$> Server.jobs store_after_run !! 0%N = Some Server.complete
  ∧ dom (Server.jobs (reuploads toy_hash toy_pages "session-2" drawing 2
                        store_after_run).2) = {[ 0%N ]}.
Proof. split_and!; by vm_compute. Qed.

(** ** Rendering the checklist *)

Lemma string_app_cons (x : ascii) (a b : string) :
  String x a +:+ b = String x (a +:+ b).
Proof. reflexivity. Qed.

Lemma string_app_empty (b : string) : "" +:+ b = b.
Proof. reflexivity. Qed.

Lemma string_app_assoc (a b c : string) : (a +:+ b) +:+ c = a +:+ (b +:+ c).
Proof.
  induction a as [|x a IH]; [reflexivity|].
  rewrite !string_app_cons. by rewrite IH.
Qed.

Lemma string_app_nil (t : string) : t +:+ "" = t.
Proof.
  induction t as [|x t IH]; [reflexivity|].
  rewrite string_app_cons. by rewrite IH.
Qed.

Ltac push_app := rewrite ?string_app_cons, ?string_app_empty.

Lemma run_skip (st : Html.state) (p r : string) :
  Html.run st (String.length p) (p +:+ r) = Html.run st O r.
Proof.
  induction p as [|c p IH]; [reflexivity|].
  rewrite string_app_cons. simpl. exact IH.
Qed.

(** Escaped text in the data state comes back as its characters, and the
    tokenizer is in the data state again after it. *)
Lemma run_data_escape (s r : string) :
  Html.run Html.Data O (Html.escape s +:+ r)
  = ((Html.Character <$> String.list_ascii_of_string s) ++ Html.run Html.Data O r)%list.
Proof.
  induction s as [|c s IH]; [reflexivity|].
  simpl Html.escape. rewrite string_app_assoc. unfold Html.escape_char.
  destruct (Ascii.eqb c "&") eqn:E1.
  { apply Ascii.eqb_eq in E1. subst c. push_app. simpl. by rewrite IH. }
  destruct (Ascii.eqb c Html.nbsp) eqn:E2.
  { apply Ascii.eqb_eq in E2. subst c. push_app. simpl. by rewrite IH. }
  destruct (Ascii.eqb c "<") eqn:E3.
  { apply Ascii.eqb_eq in E3. subst c. push_app. simpl. by rewrite IH. }
  destruct (Ascii.eqb c ">") eqn:E4.
  { apply Ascii.eqb_eq in E4. subst c. push_app. simpl. by rewrite IH. }
  push_app. simpl. rewrite E1, E3. simpl. by rewrite IH.
Qed.

Lemma normalize_escape (s r : string) :
  plain_text s = true →
  Html.normalize_newlines (Html.escape s +:+ r)
  = Html.escape s +:+ Html.normalize_newlines r.
Proof.
  unfold plain_text. induction s as [|c s IH]; [reflexivity|].
  simpl forallb.
  rewrite andb_true_iff, andb_true_iff, !negb_true_iff. intros [[Hc _] Hs].
  simpl Html.escape. rewrite !string_app_assoc. unfold Html.escape_char.
  destruct (Ascii.eqb c "&") eqn:E1; [push_app; simpl; by rewrite IH|].
  destruct (Ascii.eqb c Html.nbsp) eqn:E2; [push_app; simpl; by rewrite IH|].
  destruct (Ascii.eqb c "<") eqn:E3; [push_app; simpl; by rewrite IH|].
  destruct (Ascii.eqb c ">") eqn:E4; [push_app; simpl; by rewrite IH|].
  push_app. simpl. rewrite Hc. by rewrite IH.
Qed.

Lemma textContent_characters (s : string) :
  plain_text s = true →
  Html.textContent (Html.Character <$> String.list_ascii_of_string s) = s.
Proof.
  unfold plain_text. induction s as [|c s IH]; simpl; [done|].
  rewrite andb_true_iff, andb_true_iff, !negb_true_iff. intros [[_ Hc] Hs].
  rewrite Hc. f_equal. by apply IH.
Qed.

(** For text without U+000D and U+0000, what sanitizeHTML returns is parsed
    back to exactly the characters of the text: no tag comes out of it. *)
Lemma sanitizeHTML_round_trip (s : string) :
  plain_text s = true →
  Html.tokenize (Html.sanitizeHTML s) = Html.Character <$> String.list_ascii_of_string s
  ∧ Html.textContent (Html.tokenize (Html.sanitizeHTML s)) = s.
Proof.
  intros H.
  assert (Html.tokenize (Html.sanitizeHTML s)
          = Html.Character <$> String.list_ascii_of_string s) as Ht.
  { unfold Html.tokenize, Html.sanitizeHTML.
    pose proof (normalize_escape s "" H) as Hn.
    pose proof (run_data_escape s "") as Hr.
    rewrite string_app_nil in Hn, Hr. simpl in Hn. rewrite string_app_nil in Hn.
    rewrite Hn, Hr. simpl. by rewrite app_nil_r. }
  split; [done|]. rewrite Ht. by apply textContent_characters.
Qed.

Example sanitizeHTML_sample :
  Html.sanitizeHTML "MCB <16A> & cover" = "MCB &lt;16A&gt; &amp; cover"
  ∧ Html.textContent (Html.tokenize "MCB <b>16A</b>") = "MCB 16A".
Proof. split; reflexivity. Qed.

(** A checklist row opens with its two text cells; what follows them is the
    status select and the remarks input. *)
Lemma row_html_shape (it : Html.item) (index : nat) :
  ∃ R, Html.row_html it index
       = String Html.LF "      <td>" +:+ Html.escape (or_empty (Html.FIND_NUMBER it))
         +:+ ("</td>" +:+ String Html.LF "      <td>")
         +:+ Html.escape (or_empty (Html.PART_DESCRIPTION it)) +:+ "</td>" +:+ R.
Proof.
  unfold Html.row_html, Html.sanitizeHTML. simpl String.concat.
  rewrite !string_app_assoc. push_app.
  eexists. repeat (push_app; f_equal).
Qed.

Lemma cells_inside_text (acc s : string) (rest : list Html.token) :
  plain_text s = true →
  Html.cells (Some acc) ((Html.Character <$> String.list_ascii_of_string s) ++ rest)
  = Html.cells (Some (acc +:+ s)) rest.
Proof.
  unfold plain_text. revert acc. induction s as [|c s IH]; intros acc; simpl.
  { intros _. by rewrite string_app_nil. }
  rewrite andb_true_iff, andb_true_iff, !negb_true_iff. intros [[_ Hc] Hs].
  rewrite Hc, IH by done. unfold Html.snoc.
  by rewrite string_app_assoc.
Qed.

(** The two text cells of every checklist row, FIND NUMBER and PART
    DESCRIPTION, show their texts unchanged whatever markup the texts hold,
    for texts without U+000D and U+0000. *)
Theorem text_cells_come_back (it : Html.item) (index : nat) :
  plain_text (or_empty (Html.FIND_NUMBER it)) = true →
  plain_text (or_empty (Html.PART_DESCRIPTION it)) = true →
  take 2 (Html.cells None (Html.tokenize (Html.row_html it index)))
  = [or_empty (Html.FIND_NUMBER it); or_empty (Html.PART_DESCRIPTION it)].
Proof.
  intros Hf Hp. destruct (row_html_shape it index) as [R ->].
  unfold Html.tokenize. push_app. simpl Html.normalize_newlines.
  rewrite normalize_escape by done. push_app. simpl Html.normalize_newlines.
  rewrite normalize_escape by done. push_app. simpl Html.normalize_newlines.
  generalize (Html.normalize_newlines R). clear R. intros R.
  simpl Html.run. rewrite run_data_escape.
  simpl Html.cells. rewrite cells_inside_text by done.
  simpl Html.run. rewrite run_data_escape.
  simpl Html.cells. rewrite cells_inside_text by done.
  simpl Html.run. simpl Html.cells. simpl take.
  by rewrite !string_app_empty.
Qed.

Example text_cells_come_back_sample :
  (plain_text (or_empty (Html.FIND_NUMBER handler_row)) = true
   ∧ plain_text (or_empty (Html.PART_DESCRIPTION handler_row)) = true)
  ∧ take 2 (Html.cells None (Html.tokenize (Html.row_html handler_row 3)))
    = [or_empty (Html.FIND_NUMBER handler_row);
       or_empty (Html.PART_DESCRIPTION handler_row)].
Proof.
  split; [split; reflexivity|].
  apply (text_cells_come_back handler_row 3); reflexivity.
Defined.

(** C10, on the code.  renderChecklist puts the remark, escaped as text,
    between the double quotes of the [value] attribute, and escaping text
    leaves a double quote as it is.  A remark with a double quote therefore
    ends the attribute early: of the remark [inch_remark] the input shows 12
    only, and the rest is read as markup; a remark can give the input an
    attribute of its own, such as an event handler.  The FIND NUMBER and
    PART DESCRIPTION cells of the same rows show their texts unchanged. *)
Theorem remark_with_quote_leaves_its_attribute :
  (attribute "value" <$> Html.remarks_input inch_row 0) = Some (Some "12")
  ∧ (attribute "onfocus" <$> Html.remarks_input handler_row 0)
    = Some (Some "alert(1)")
  ∧ (attribute "value" <$> Html.remarks_input handler_row 0) = Some (Some "x")
  ∧ take 2 (Html.cells None (Html.tokenize (Html.row_html handler_row 0)))
    = ["7"; "MCB <16A> & cover"].
Proof. split_and!; by vm_compute. Qed.

Example sanitizeHTML_round_trip_sample :
  plain_text "MCB <16A> & cover" = true
  ∧ (Html.tokenize (Html.sanitizeHTML "MCB <16A> & cover")
     = Html.Character <$> String.list_ascii_of_string "MCB <16A> & cover"
     ∧ Html.textContent (Html.tokenize (Html.sanitizeHTML "MCB <16A> & cover"))
       = "MCB <16A> & cover").
Proof.
  split; [reflexivity|]. apply sanitizeHTML_round_trip. reflexivity.
Defined.

(** ** The upload decision of the engine *)

(** Modelled from the spec, section 4.6: without the force flag the engine
    answers "cached" or "resumable" without touching its stores, or starts a
    job under an id no job had, or rejects the upload. *)
Lemma upload_decision_shape (computeHash : list Byte.byte → string)
    (pages_of : list Byte.byte → option nat) bytes sess s :
  match Server.upload_decide computeHash pages_of bytes sess false s with
  | (Server.Cached p n, s') =>
      s' = s ∧ ∃ e, Server.lookup (computeHash bytes) s = Some e
                    ∧ p = Server.page_count e ∧ n = length (Server.detections e)
  | (Server.Resumable h cp, s') =>
      s' = s ∧ Server.lookup (computeHash bytes) s = None
      ∧ Server.read_checkpoint (computeHash bytes) s = Some cp
  | (Server.Started id, s') =>
      Server.jobs s !! id = None ∧ is_Some (Server.jobs s' !! id)
  | (Server.Rejected _, s') => s' = s
  end.
Proof.
  unfold Server.upload_decide.
  destruct (Server.lookup (computeHash bytes) s) as [e|] eqn:El; [by eauto|].
  destruct (Server.read_checkpoint (computeHash bytes) s) as [cp|] eqn:Ec; [done|].
  unfold Server.start_run. destruct (pages_of bytes) as [n|]; [|done].
  unfold Server.start. destruct (Server.owned _ s); [done|]. simpl.
  split.
  - apply not_elem_of_dom, is_fresh.
  - rewrite lookup_insert_eq. eauto.
Qed.

(** The three answers of the engine are told apart by the client's tests:
    each of them passes exactly one. *)
Lemma encoded_decision_names_one_outcome (d : Server.decision) :
  match Server.encode d with
  | Response true _ (Some data) =>
      length (filter (λ b, b = true)
                [strict_eq (u_status data) (JStr "cached");
                 strict_eq (u_status data) (JStr "resumable");
                 truthy (u_job_id data)]) = 1%nat
  | _ => ∃ e, d = Server.Rejected e
  end.
Proof. destruct d as [| | |[]]; simpl; eauto. Qed.

(** ** Worked examples of the upload protocol *)

(** A checkpoint exists and the user closes the dialog: the summary was
    shown and nothing else happened. *)
Example resumable_and_no_choice :
  uploadGA resumable_server (Some drawing) None (fresh_client, tt)
  = (Done tt,
     (emit (ResumeDialog two_of_three)
        (emit (Sent (UploadGA drawing false)) fresh_client), tt)).
Proof. reflexivity. Qed.

(** The user chooses "fresh": clear, then the forced upload, then polling. *)
Example resumable_and_fresh :
  requests (log (uploadGA resumable_server (Some drawing) (Some Fresh)
                   (fresh_client, tt)).2.1)
  = [UploadGA drawing false; ClearProgress "9e107d9d"; UploadGA drawing true]
  ∧ gaPollTimer (uploadGA resumable_server (Some drawing) (Some Fresh)
                   (fresh_client, tt)).2.1 = Some "job-2"
  ∧ ga_job_id (uploadGA resumable_server (Some drawing) (Some Fresh)
                 (fresh_client, tt)).2.1 = Some "job-2".
Proof. split_and!; reflexivity. Qed.

(** The user chooses "resume". *)
Example resumable_and_resume :
  requests (log (uploadGA resumable_server (Some drawing) (Some Resume)
                   (fresh_client, tt)).2.1)
  = [UploadGA drawing false; ResumeGA drawing]
  ∧ gaPollTimer (uploadGA resumable_server (Some drawing) (Some Resume)
                   (fresh_client, tt)).2.1 = Some "job-3".
Proof. split; reflexivity. Qed.

(** A rejected upload: the error is shown, nothing is stored or polled. *)
Example rejected_upload :
  uploadGA conflict_server (Some drawing) None (fresh_client, tt)
  = (Done tt,
     (emit (Alert (ErrorUploadingGA "HTTP 409: Conflict"))
        (set_progressModal false
           (emit (Sent (UploadGA drawing false)) fresh_client)), tt)).
Proof. reflexivity. Qed.

(** ** Cancelling, losing the connection, resuming *)

(** cancelGAProcessing never throws and sends at most one request, the
    cancel request of the stored job.  It removes the stored job id and
    stops the poller exactly when that request was answered with an ok
    status; in every other case the job id, the poller and the progress
    dialog are as they were. *)
Theorem cancelGAProcessing_needs_an_ok_answer {S} (net : network S)
    (c : client) (s : S) :
  let r := cancelGAProcessing net (c, s) in
  r.1 = Done tt
  ∧ (∃ l, log r.2.1 = (log c ++ l)%list
          ∧ requests l = match stored_job c with
                         | Some id => [JobCancel id]
                         | None => []
                         end)
  ∧ match stored_job c with
    | Some id =>
        match (job_cancel net id s).1 with
        | Response true _ _ =>
            ga_job_id r.2.1 = None ∧ gaPollTimer r.2.1 = None
            ∧ progressModal r.2.1 = false
            ∧ last (log r.2.1) = Some (Alert CancelledSuccessfully)
        | _ =>
            ga_job_id r.2.1 = ga_job_id c ∧ gaPollTimer r.2.1 = gaPollTimer c
            ∧ progressModal r.2.1 = progressModal c
            ∧ last (log r.2.1) = Some (Alert CancelFailed)
        end
    | None =>
        r.2 = (emit (Alert NoActiveProcessing) c, s)
    end.
Proof.
  cbv zeta. unfold cancelGAProcessing, bind, read, try_catch, fetch, say, update,
    stopPolling, hideProgressModal, throw, ret. simpl.
  destruct (stored_job c) as [id|]; simpl.
  - destruct (job_cancel net id s) as [[|[] code d] s1]; simpl;
      (split; [done|]); (split; [eexists; rewrite <- ?app_assoc; split; [reflexivity|done] |]);
      rewrite ?last_snoc; done.
  - split; [done|]. split; [|done]. by eexists.
Qed.

(** One firing of the poller never throws, and when it starts with the
    completion flag down it ends with the flag down, however the status
    request and the loading of the results end: no failure can leave the
    poller locked out. *)
Theorem poll_tick_releases_the_completion_flag {S} (net : network S)
    (c : client) (s : S) :
  isProcessingCompletion c = false →
  (poll_tick net (c, s)).1 = Done tt
  ∧ isProcessingCompletion (poll_tick net (c, s)).2.1 = false.
Proof.
  intros Hb.
  destruct (gaPollTimer c) as [id|] eqn:Ht;
    unfold poll_tick, try_catch, bind, read, fetch, json_if_ok, updateProgress,
      say, update, stopPolling, hideProgressModal, throw, ret; simpl;
    rewrite !Ht; simpl; [|done].
  rewrite !Hb. simpl.
  destruct (job_status net id s) as [[|[] code [data|]] s1]; simpl; try done.
  unfold status_is, strict_eq. destruct data as [st pr msg]. simpl.
  case_bool_decide as E1.
  { subst st. rewrite !bool_decide_eq_false_2 by done.
    unfold loadBalloonMapping, group_into_mapping, loadGA, renderPage, try_finally,
      try_catch, bind, fetch, json_if_ok, throw, say, read, update, ret; simpl.
    case_loads net s1; done. }
  case_bool_decide as E2.
  { subst st. rewrite !bool_decide_eq_false_2 by done. done. }
  case_bool_decide as E3; done.
Qed.

Example poll_tick_releases_the_completion_flag_sample :
  isProcessingCompletion polling_job7 = false
  ∧ (poll_tick offline (polling_job7, tt)).1 = Done tt
  ∧ isProcessingCompletion (poll_tick offline (polling_job7, tt)).2.1 = false.
Proof.
  split; [reflexivity|].
  apply (poll_tick_releases_the_completion_flag offline polling_job7 tt).
  reflexivity.
Defined.

(** When the status request of a poll is not answered with an ok status and
    a JSON body, the poller stops, the progress dialog closes and the
    lost-connection message is shown, but the job id stays stored:
    cancelGAProcessing still asks the server to cancel that job. *)
Theorem lost_connection_keeps_the_job_id {S} (net : network S) (id : string)
    (c : client) (s : S) :
  gaPollTimer c = Some id →
  isProcessingCompletion c = false →
  (∀ code d, (job_status net id s).1 ≠ Response true code (Some d)) →
  let r := poll_tick net (c, s) in
  r.1 = Done tt
  ∧ gaPollTimer r.2.1 = None
  ∧ progressModal r.2.1 = false
  ∧ ga_job_id r.2.1 = ga_job_id c
  ∧ log r.2.1 = (log c ++ [Sent (JobStatus id); Alert LostConnection])%list
  ∧ ∀ job, stored_job c = Some job →
      ∃ l, log (cancelGAProcessing net r.2).2.1
           = (log r.2.1 ++ Sent (JobCancel job) :: l)%list.
Proof.
  intros Ht Hb Hbad. cbv zeta.
  assert (∃ s1, poll_tick net (c, s)
                = (Done tt,
                   (emit (Alert LostConnection)
                      (set_progressModal false
                         (stop_polling (emit (Sent (JobStatus id)) c))), s1)))
    as [s1 Hr].
  { unfold poll_tick, try_catch, bind, read, fetch, json_if_ok, updateProgress,
      say, update, stopPolling, hideProgressModal, throw, ret. simpl.
    rewrite !Ht. simpl. rewrite !Hb. simpl.
    destruct (job_status net id s) as [[|[] code [data|]] s'] eqn:Hs; simpl;
      try (by exfalso; eapply Hbad); by eexists. }
  rewrite Hr. simpl. rewrite <- app_assoc. simpl. split_and!; try done.
  intros job Hj.
  unfold cancelGAProcessing, bind, read, try_catch, fetch, say, update,
    stopPolling, hideProgressModal, throw, ret; simpl.
  change (stored_job _) with (stored_job c). rewrite Hj. simpl.
  destruct (job_cancel net job s1) as [[|[] ? ?] ?]; simpl;
    eexists; rewrite <- ?app_assoc; simpl; reflexivity.
Qed.

Example lost_connection_keeps_the_job_id_sample :
  (gaPollTimer polling_job7 = Some "job-7"
   ∧ isProcessingCompletion polling_job7 = false
   ∧ ∀ code d, (job_status offline "job-7" tt).1 ≠ Response true code (Some d))
  ∧ ga_job_id (poll_tick offline (polling_job7, tt)).2.1 = Some "job-7".
Proof.
  split; [split_and!; [reflexivity|reflexivity|by intros code d]|].
  pose proof (lost_connection_keeps_the_job_id offline "job-7" polling_job7 tt
                eq_refl eq_refl (λ code d, ltac:(discriminate))) as H.
  cbv zeta in H. by rewrite (proj1 (proj2 (proj2 (proj2 H)))).
Defined.

(** ** Resuming *)

(** resumeGAProcessing resets the viewer before it asks the server, so the
    drawing on display is gone whether or not the resume is accepted.  When
    the answer is ok and JSON the job id it names is stored and polled with
    the progress dialog open; otherwise the dialog is closed, an error is
    shown, and the stored job id and the poller are as they were. *)
Theorem resumeGAProcessing_resets_the_viewer {S} (net : network S) (file : File)
    (fileHash : jsval) (c : client) (s : S) :
  let r := resumeGAProcessing net file fileHash (c, s) in
  r.1 = Done tt
  ∧ gaLoaded r.2.1 = false ∧ balloonMapping r.2.1 = ∅
  ∧ currentPage r.2.1 = 1 ∧ totalPages r.2.1 = 0
  ∧ match (resume_ga net file s).1 with
    | Response true _ (Some job_id) =>
        safe_number job_id →
        ga_job_id r.2.1 = Some (js_String job_id)
        ∧ gaPollTimer r.2.1 = Some (js_String job_id)
        ∧ progressModal r.2.1 = true
        ∧ log r.2.1 = (log c ++ [Sent (ResumeGA file)])%list
    | _ =>
        ga_job_id r.2.1 = ga_job_id c
        ∧ gaPollTimer r.2.1 = gaPollTimer c
        ∧ progressModal r.2.1 = false
        ∧ ∃ msg, log r.2.1
                 = (log c ++ [Sent (ResumeGA file); Alert (ErrorResumingGA msg)])%list
    end.
Proof.
  cbv zeta.
  unfold resumeGAProcessing, pollJob, stopPolling, resetGAViewer, showProgressModal,
    hideProgressModal, try_catch, bind, fetch, json_if_ok_text, throw, say, update,
    ret.
  simpl. destruct (resume_ga net file s) as [[|[] ? [d|]] s1]; simpl;
    rewrite <- ?app_assoc; simpl; split_and!; eauto.
Qed.

(** ** Uploading *)

(** uploadGA never throws: whatever the server answers and whatever the user
    chooses, every failure ends in an alert.  When the upload itself is not
    answered with an ok status and a JSON body, the error is shown, the
    progress dialog is closed, and the stored job id, the poller and the
    viewer are as they were. *)
Theorem uploadGA_never_throws {S} (net : network S) (file : option File)
    (pressed : option resume_choice) (c : client) (s : S) :
  let r := uploadGA net file pressed (c, s) in
  r.1 = Done tt
  ∧ match file with
    | None => r.2 = (emit (Alert SelectGAFile) c, s)
    | Some f =>
        match (upload_ga net f false s).1 with
        | Response true _ (Some _) => True
        | _ =>
            ga_job_id r.2.1 = ga_job_id c ∧ gaPollTimer r.2.1 = gaPollTimer c
            ∧ gaLoaded r.2.1 = gaLoaded c ∧ balloonMapping r.2.1 = balloonMapping c
            ∧ currentPage r.2.1 = currentPage c ∧ totalPages r.2.1 = totalPages c
            ∧ progressModal r.2.1 = false
            ∧ ∃ msg, log r.2.1
                     = (log c ++ [Sent (UploadGA f false);
                                  Alert (ErrorUploadingGA msg)])%list
        end
    end.
Proof.
  cbv zeta. destruct file as [f|]; [|done].
  unfold uploadGA, try_catch, bind, fetch, json_if_ok_text, throw, ret. simpl.
  destruct (upload_ga net f false s) as [[|[] code [data|]] s1]; simpl;
    try (unfold hideProgressModal, say, update, bind; simpl;
         rewrite <- ?app_assoc; simpl; split_and!; by eauto).
  split; [|done].
  destruct (strict_eq (u_status data) (JStr "cached")).
  { unfold loadBalloonMapping, group_into_mapping, loadGA, renderPage,
      hideProgressModal, try_catch, bind, fetch, json_if_ok, throw, say, read,
      update, ret; simpl.
    case_loads net s1; reflexivity. }
  destruct (strict_eq (u_status data) (JStr "resumable")).
  { unfold showResumeDialog, bind, say, update, throw, ret.
    destruct (u_progress_data data) as [p|]; simpl; [|reflexivity].
    destruct pressed as [[]|]; simpl; [| |reflexivity].
    - destruct (resumeGAProcessing_done net f (u_file_hash data)
                  (emit (ResumeDialog p) (emit (Sent (UploadGA f false)) c), s1))
        as [w' ->]. reflexivity.
    - destruct (startFreshGAProcessing_done net f (u_file_hash data)
                  (emit (ResumeDialog p) (emit (Sent (UploadGA f false)) c), s1))
        as [w' ->]. reflexivity. }
  destruct (truthy (u_job_id data)); reflexivity.
Qed.

(** ** The job handlers of the second copy of script.js *)

(** The uploadGA of the second copy of script.js resets the viewer and opens
    the progress dialog before it asks, and trusts whatever comes back: any
    answer with a JSON body, whatever its HTTP status, has the text of its
    [job_id] stored and polled, the text "undefined" when the body names no
    job.  When the request fails or the body is not JSON the handler
    throws, and the progress dialog stays open. *)
Theorem second_copy_uploadGA_trusts_the_answer {S} (net : network S)
    (file : File) (c : client) (s : S) :
  let r := ScriptJs2Jobs.uploadGA net (Some file) (c, s) in
  gaLoaded r.2.1 = false ∧ balloonMapping r.2.1 = ∅
  ∧ progressModal r.2.1 = true
  ∧ match (upload_ga net file false s).1 with
    | Response _ _ (Some d) =>
        safe_number (u_job_id d) →
        r.1 = Done tt
        ∧ ga_job_id r.2.1 = Some (js_String (u_job_id d))
        ∧ gaPollTimer r.2.1 = Some (js_String (u_job_id d))
        ∧ (u_job_id d = JUndefined → ga_job_id r.2.1 = Some "undefined")
    | _ =>
        (∃ e, r.1 = Thrown e)
        ∧ ga_job_id r.2.1 = ga_job_id c
        ∧ gaPollTimer r.2.1 = gaPollTimer c
    end.
Proof.
  cbv zeta.
  unfold ScriptJs2Jobs.uploadGA, ScriptJs2Jobs.pollJob, resetGAViewer,
    showProgressModal, bind, fetch, json_any, throw, update, ret. simpl.
  destruct (upload_ga net file false s) as [[|ok code [d|]] s1]; simpl;
    split_and!; eauto.
  intros _. split_and!; eauto. by intros ->.
Qed.

(** The poller of the second copy of script.js stops on exactly complete,
    cancelled and error: a poll that reports one of them ends the interval,
    removes the stored job id and closes the progress dialog, also when the
    results cannot be loaded afterwards, and for cancelled and error the
    status is shown.  A poll that reports anything else only updates the
    progress. *)
Theorem second_copy_poller_stops_on_terminal_states {S} (net : network S)
    (id : string) (c : client) (s : S) (ok : bool) (code : Z)
    (data : status_data) (s1 : S) :
  gaPollTimer c = Some id →
  job_status net id s = (Response ok code (Some data), s1) →
  let r := ScriptJs2Jobs.poll_tick net (c, s) in
  let c1 := emit (Progress data) (emit (Sent (JobStatus id)) c) in
  r.1 = Done tt
  ∧ if status_is data "complete" then
      gaPollTimer r.2.1 = None ∧ ga_job_id r.2.1 = None
      ∧ progressModal r.2.1 = false
    else if status_is data "cancelled" || status_is data "error" then
      r.2 = (emit (Alert (ProcessingStopped (js_String (s_status data))))
               (set_progressModal false
                  (set_ga_job_id None (set_gaPollTimer None c1))), s1)
    else r.2 = (c1, s1).
Proof.
  intros Ht H. cbv zeta.
  unfold ScriptJs2Jobs.poll_tick, try_catch, bind, read, fetch, json_any,
    updateProgress, hideProgressModal, say, update, throw, ret. simpl.
  rewrite !Ht. simpl. rewrite !H. simpl.
  unfold status_is, strict_eq. destruct data as [st pr msg]. simpl.
  case_bool_decide as E1.
  { subst st. rewrite !bool_decide_eq_false_2 by done. simpl.
    unfold ScriptJs2Jobs.loadBalloonMapping, ScriptJs2Jobs.loadGA,
      Part000b.loadBalloonMapping, Part000b.loadGA, group_into_mapping,
      ScriptJs1.renderPage, bind, fetch, json_any, throw, update, ret. simpl.
    destruct (balloon_results net s1) as [[|? ? [[l|]|]] s2]; simpl; try done.
    destruct (for_each Part000b.group ∅ l) as [[[]|?] ?]; simpl; try done.
    destruct (ga_pages net s2) as [[|? ? [n|]] s3]; simpl; try done.
    by destruct (ga_image net 1 s3) as [[] s4]. }
  case_bool_decide as E2; simpl.
  { subst st. done. }
  case_bool_decide as E3; simpl; [subst st|]; done.
Qed.

Example second_copy_poller_stops_on_terminal_states_sample :
  (gaPollTimer polling_job7 = Some "job-7"
   ∧ job_status error_server "job-7" tt
     = (Response true 200 (Some (status_answer "error")), tt))
  ∧ (ScriptJs2Jobs.poll_tick error_server (polling_job7, tt)).2
    = (emit (Alert (ProcessingStopped "error"))
         (set_progressModal false
            (set_ga_job_id None
               (set_gaPollTimer None
                  (emit (Progress (status_answer "error"))
                     (emit (Sent (JobStatus "job-7")) polling_job7))))), tt).
Proof.
  split; [split; reflexivity|].
  exact (proj2 (second_copy_poller_stops_on_terminal_states error_server "job-7"
                  polling_job7 tt true 200 (status_answer "error") tt
                  eq_refl eq_refl)).
Defined.

(** The cancelGAProcessing of the second copy of script.js does not look at
    the answer to its request: once the request is answered at all, even
    with an error status, the stored job id is removed, the poller stopped
    and the cancellation announced.  When the request fails nothing is
    shown and the job id and the poller stay. *)
Theorem second_copy_cancel_ignores_the_status {S} (net : network S)
    (jobId : string) (c : client) (s : S) :
  stored_job c = Some jobId →
  let r := ScriptJs2Jobs.cancelGAProcessing net (c, s) in
  let c1 := emit (Sent (JobCancel jobId)) c in
  match job_cancel net jobId s with
  | (Response _ _ _, s1) =>
      r = (Done tt,
           (emit (Alert (ProcessingStopped "cancelled"))
              (set_progressModal false
                 (set_gaPollTimer None (set_ga_job_id None c1))), s1))
  | (NetworkError, s1) => r = (Done tt, (c1, s1))
  end.
Proof.
  intros Hj. cbv zeta.
  unfold ScriptJs2Jobs.cancelGAProcessing, try_catch, bind, read, fetch,
    hideProgressModal, say, update, ret. simpl. rewrite Hj. simpl.
  by destruct (job_cancel net jobId s) as [[|? ? ?] s1].
Qed.

Example second_copy_cancel_ignores_the_status_sample :
  stored_job polling_job7 = Some "job-7"
  ∧ ga_job_id (ScriptJs2Jobs.cancelGAProcessing offline (polling_job7, tt)).2.1
    = Some "job-7".
Proof.
  split; [reflexivity|].
  pose proof (second_copy_cancel_ignores_the_status offline "job-7" polling_job7 tt
                eq_refl) as H.
  cbv zeta in H. simpl in H. by rewrite H.
Defined.
